(** * Tx Simulator (app.py): a shallow embedding and its checked properties

    The program is a Streamlit script: it reads four inputs (API key, chain,
    hex call data, ABI JSON), optionally decodes the call data against the
    ABI, and when the button is pressed posts the call data to the simulation
    endpoint and renders the answer.

    The embedding keeps the script's shape.  Python values are an inductive
    type [pyval]; everything the script does to the outside (widgets drawn,
    HTTP requests, the two memoisation caches) is threaded through a [world]
    record by a small state-and-exception monad [M].  What third-party
    libraries compute (requests, web3, json, PIL, str()) is a record [libs]
    that the script takes as a parameter, so every theorem holds for every
    behaviour of those libraries. *)

From Stdlib Require Import ZArith List String Ascii Bool Lia.
From Stdlib Require Import Floats.SpecFloat.
Import ListNotations.

Set Warnings "-register-all".

Open Scope string_scope.
Open Scope list_scope.

(** ** Python values *)

(** The values that flow through the script: JSON values returned by the
    endpoint ([None], booleans, integers, floats, strings, lists, objects) and,
    for decoded ABI arguments, byte strings and tuples.  A [dict] is kept as an
    association list in insertion order; lookup takes the first binding. *)
Inductive pyval : Type :=
| PNone
| PBool (b : bool)
| PInt (z : Z)
| PFloat (f : spec_float)
| PStr (s : string)
| PBytes (s : string)
| PList (l : list pyval)
| PTuple (l : list pyval)
| PDict (d : list (string * pyval)).

(** Raised exceptions: the class name and [str(e)].  Every exception of this
    model is a subclass of [Exception], which is what both [except] clauses of
    the script catch.  The texts of the built-in errors follow CPython's
    wording loosely; no statement below depends on them. *)
Record exn : Type := Exn { exn_class : string; exn_str : string }.

Inductive outcome (A : Type) : Type :=
| Ok (a : A)
| Raise (e : exn).
Arguments Ok {A} a.
Arguments Raise {A} e.

Definition TypeError (msg : string) : exn := Exn "TypeError" msg.
Definition KeyError (key : string) : exn := Exn "KeyError" ("'" ++ key ++ "'").
Definition AttributeError (msg : string) : exn := Exn "AttributeError" msg.

Definition type_name (v : pyval) : string :=
  match v with
  | PNone => "NoneType"
  | PBool _ => "bool"
  | PInt _ => "int"
  | PFloat _ => "float"
  | PStr _ => "str"
  | PBytes _ => "bytes"
  | PList _ => "list"
  | PTuple _ => "tuple"
  | PDict _ => "dict"
  end.

Fixpoint dict_find (key : string) (d : list (string * pyval)) : option pyval :=
  match d with
  | [] => None
  | (k, v) :: d' => if String.eqb key k then Some v else dict_find key d'
  end.

Definition dict_has (key : string) (d : list (string * pyval)) : bool :=
  match dict_find key d with Some _ => true | None => false end.

Definition sf_eqb (x y : spec_float) : bool :=
  match x, y with
  | S754_zero a, S754_zero b => Bool.eqb a b
  | S754_infinity a, S754_infinity b => Bool.eqb a b
  | S754_nan, S754_nan => true
  | S754_finite a m e, S754_finite b n f =>
      Bool.eqb a b && Pos.eqb m n && Z.eqb e f
  | _, _ => false
  end.

(** Structural equality, used for cache keys (Streamlit hashes the type and
    the value of every argument, so [1], [True] and [1.0] are different keys)
    and for list membership of a string. *)
Fixpoint pyval_eqb (x y : pyval) {struct x} : bool :=
  let fix list_eqb (l1 l2 : list pyval) {struct l1} : bool :=
    match l1, l2 with
    | [], [] => true
    | a :: l1', b :: l2' => pyval_eqb a b && list_eqb l1' l2'
    | _, _ => false
    end in
  let fix dict_eqb (d1 d2 : list (string * pyval)) {struct d1} : bool :=
    match d1, d2 with
    | [], [] => true
    | (k1, a) :: d1', (k2, b) :: d2' =>
        String.eqb k1 k2 && pyval_eqb a b && dict_eqb d1' d2'
    | _, _ => false
    end in
  match x, y with
  | PNone, PNone => true
  | PBool a, PBool b => Bool.eqb a b
  | PInt a, PInt b => Z.eqb a b
  | PFloat a, PFloat b => sf_eqb a b
  | PStr a, PStr b => String.eqb a b
  | PBytes a, PBytes b => String.eqb a b
  | PList a, PList b => list_eqb a b
  | PTuple a, PTuple b => list_eqb a b
  | PDict a, PDict b => dict_eqb a b
  | _, _ => false
  end.

(** [bool(v)]. *)
Definition py_truthy (v : pyval) : bool :=
  match v with
  | PNone => false
  | PBool b => b
  | PInt z => negb (Z.eqb z 0)
  | PFloat (S754_zero _) => false
  | PFloat _ => true
  | PStr s | PBytes s => negb (String.eqb s "")
  | PList l | PTuple l => match l with [] => false | _ => true end
  | PDict d => match d with [] => false | _ => true end
  end.

(** [sub in s] for two strings. *)
Fixpoint is_substring (sub s : string) : bool :=
  String.prefix sub s
  || match s with
     | EmptyString => false
     | String _ s' => is_substring sub s'
     end.

(** [key in v] for a string [key]: key membership for a dict, element
    membership for a list or tuple, substring test for a string; a
    [TypeError] for a value that is not a container (and for [bytes], which
    does not accept a [str] on the left). *)
Definition py_in (key : string) (v : pyval) : outcome bool :=
  match v with
  | PDict d => Ok (dict_has key d)
  | PList l | PTuple l => Ok (existsb (pyval_eqb (PStr key)) l)
  | PStr s => Ok (is_substring key s)
  | PBytes _ => Raise (TypeError "a bytes-like object is required, not 'str'")
  | _ => Raise (TypeError ("argument of type '" ++ type_name v ++ "' is not iterable"))
  end.

(** [v.get(key, default)]: only a dict has the method. *)
Definition py_get (v : pyval) (key : string) (default : pyval) : outcome pyval :=
  match v with
  | PDict d => Ok (match dict_find key d with Some x => x | None => default end)
  | _ => Raise (AttributeError ("'" ++ type_name v ++ "' object has no attribute 'get'"))
  end.

(** [v[key]] for a string [key]. *)
Definition py_getitem (v : pyval) (key : string) : outcome pyval :=
  match v with
  | PDict d => match dict_find key d with
               | Some x => Ok x
               | None => Raise (KeyError key)
               end
  | PStr _ | PBytes _ | PList _ | PTuple _ =>
      Raise (TypeError (type_name v ++ " indices must be integers"))
  | _ => Raise (TypeError ("'" ++ type_name v ++ "' object is not subscriptable"))
  end.

(** The items that [for ... in enumerate(v[:n])] visits.  Slicing a string
    gives its characters (the one-character strings are never inspected by
    the script: subscripting one with a string raises at once).  A dict
    cannot be sliced: the subscript raises ([KeyError] from Python 3.12 on,
    [TypeError] before). *)
Definition py_slice_to (n : nat) (v : pyval) : outcome (list pyval) :=
  match v with
  | PList l | PTuple l => Ok (firstn n l)
  | PStr s => Ok (map (fun c => PStr (String c "")) (firstn n (list_ascii_of_string s)))
  | PBytes s => Ok (map (fun c => PInt (Z.of_nat (nat_of_ascii c))) (firstn n (list_ascii_of_string s)))
  | PDict _ => Raise (Exn "KeyError" "slice")
  | _ => Raise (TypeError ("'" ++ type_name v ++ "' object is not subscriptable"))
  end.

(** The integer [c] as a binary64 float, for [0 < c < 2^53]. *)
Definition float_of_small_pos (c : positive) : spec_float :=
  let shift := (53 - Z.of_nat (Pos.size_nat c))%Z in
  S754_finite false (Pos.shiftl c (Z.to_N shift)) (- shift)%Z.

(** [v > c] for an integer constant [c] with [0 < c < 2^53]: numeric for the
    three numeric types ([bool] is an [int]; a NaN compares false), a
    [TypeError] otherwise. *)
Definition py_gt_const (v : pyval) (c : positive) : outcome bool :=
  match v with
  | PInt z => Ok (Z.ltb (Z.pos c) z)
  | PBool b => Ok (Z.ltb (Z.pos c) (if b then 1 else 0))
  | PFloat f => Ok (SFltb (float_of_small_pos c) f)
  | _ => Raise (TypeError ("'>' not supported between instances of '"
                           ++ type_name v ++ "' and 'int'"))
  end.

(** ** The outside world *)

Inductive image : Type := Image (data : string).

(** What the script draws, in order.  [UiCol i ev] is [ev] drawn inside the
    [i]-th column of the columns created last. *)
Inductive ui_event : Type :=
| UiTitle (s : string)
| UiMarkdown (s : string)
| UiSubheader (s : string)
| UiError (s : string)
| UiWarning (s : string)
| UiCaption (s : string)
| UiJson (v : pyval)
| UiMetric (label : string) (v : pyval)
| UiDataframe (v : pyval)
| UiImage (img : image) (width : Z)
| UiColumns (n : nat)
| UiCol (i : nat) (ev : ui_event).

Inductive net_request : Type :=
| HttpPost (url : string) (headers : list (string * string)) (json : pyval)
| HttpGet (url : string) (headers : list (string * string)).

Record response : Type := Response {
  status_code : Z;
  content : string;
  (** what [response.json()] does: the parsed body, or the decoding error *)
  json_body : outcome pyval
}.

Definition sim_key : Type := (string * string * Z)%type.
Definition img_key : Type := (string * pyval * pyval)%type.

Definition sim_key_eqb (a b : sim_key) : bool :=
  let '(k1, d1, c1) := a in
  let '(k2, d2, c2) := b in
  String.eqb k1 k2 && String.eqb d1 d2 && Z.eqb c1 c2.

Definition img_key_eqb (a b : img_key) : bool :=
  let '(k1, a1, t1) := a in
  let '(k2, a2, t2) := b in
  String.eqb k1 k2 && pyval_eqb a1 a2 && pyval_eqb t1 t2.

(** Calls of the two decorated functions, whether or not the cache serves them. *)
Inductive call : Type :=
| CallSimulate (k : sim_key)
| CallNftImage (k : img_key).

(** ** The memoisation caches *)

Section Cache.
Context {K V : Type} (key_eqb : K -> K -> bool).

(** Modelled from the spec: the key-value store behind [st.cache_data]
    (Streamlit is not part of the repository).  Newest entry first; each
    entry carries the time it was stored. *)
Definition cache : Type := list (K * (Z * V)).

Fixpoint cache_find (k : K) (c : cache) : option (Z * V) :=
  match c with
  | [] => None
  | (k', e) :: c' => if key_eqb k k' then Some e else cache_find k c'
  end.

(** An entry stored at [stored] is fresh at [now] while fewer than [ttl]
    seconds have passed; without a [ttl] it is always fresh. *)
Definition cache_fresh (ttl : option Z) (now stored : Z) : bool :=
  match ttl with
  | None => true
  | Some d => Z.ltb now (stored + d)
  end.

Definition cache_lookup (ttl : option Z) (now : Z) (k : K) (c : cache) : option V :=
  match cache_find k c with
  | Some (stored, v) => if cache_fresh ttl now stored then Some v else None
  | None => None
  end.

Definition cache_store (now : Z) (k : K) (v : V) (c : cache) : cache :=
  (k, (now, v)) :: c.
End Cache.

Record world : Type := World {
  ui : list ui_event;
  net : list net_request;
  calls : list call;
  sim_cache : @cache sim_key pyval;
  img_cache : @cache img_key (option image)
}.

Definition add_ui (ev : ui_event) (w : world) : world :=
  World (ui w ++ [ev]) (net w) (calls w) (sim_cache w) (img_cache w).
Definition add_net (r : net_request) (w : world) : world :=
  World (ui w) (net w ++ [r]) (calls w) (sim_cache w) (img_cache w).
Definition add_call (c : call) (w : world) : world :=
  World (ui w) (net w) (calls w ++ [c]) (sim_cache w) (img_cache w).
Definition set_sim_cache (c : @cache sim_key pyval) (w : world) : world :=
  World (ui w) (net w) (calls w) c (img_cache w).
Definition set_img_cache (c : @cache img_key (option image)) (w : world) : world :=
  World (ui w) (net w) (calls w) (sim_cache w) c.

Definition empty_world : world := World [] [] [] [] [].

(** ** The monad of the script: state passing with exceptions *)

Definition M (A : Type) : Type := world -> outcome A * world.

Definition ret {A} (a : A) : M A := fun w => (Ok a, w).

Definition bind {A B} (m : M A) (k : A -> M B) : M B :=
  fun w => match m w with
           | (Ok a, w') => k a w'
           | (Raise e, w') => (Raise e, w')
           end.

Definition lift {A} (o : outcome A) : M A := fun w => (o, w).

(** [try: body / except Exception as e: handler e]. *)
Definition try_except {A} (body : M A) (handler : exn -> M A) : M A :=
  fun w => match body w with
           | (Ok a, w') => (Ok a, w')
           | (Raise e, w') => handler e w'
           end.

Declare Scope py_scope.
Delimit Scope py_scope with py.
Notation "x <- m ;; k" := (bind m (fun x => k))
  (at level 100, m at next level, right associativity) : py_scope.
Notation "m ;;; k" := (bind m (fun _ => k))
  (at level 100, right associativity) : py_scope.
Open Scope py_scope.

(** A drawing call on a fixed string: [st.error], [st.warning], ... *)
Definition emit (ev : ui_event) : M unit := fun w => (Ok tt, add_ui ev w).

Definition log_call (c : call) : M unit := fun w => (Ok tt, add_call c w).

(** [for i, x in enumerate(l): body i x], counting from [i]. *)
Fixpoint for_enumerate {A} (body : nat -> A -> M unit) (i : nat) (l : list A) : M unit :=
  match l with
  | [] => ret tt
  | x :: l' => body i x ;;; for_enumerate body (S i) l'
  end.

(** Modelled from the spec: the memoisation done by Streamlit's
    [st.cache_data] decorator, a library that is not part of the repository.
    A call whose arguments have a fresh entry returns the stored value and
    does not run the function; otherwise the function runs and, when it
    returns, its value is stored under the arguments with the current time.
    A call that raises stores nothing. *)
Definition cache_data {K V} (key_eqb : K -> K -> bool) (ttl : option Z)
    (get : world -> @cache K V) (set : @cache K V -> world -> world)
    (now : Z) (k : K) (f : M V) : M V :=
  fun w => match cache_lookup key_eqb ttl now k (get w) with
           | Some v => (Ok v, w)
           | None => match f w with
                     | (Ok v, w') => (Ok v, set (cache_store now k v (get w')) w')
                     | (Raise e, w') => (Raise e, w')
                     end
           end.

(** ** The libraries the script calls *)

(** What the third-party code computes, one field per call site.
    - [py_str]: [str(v)], as f-strings apply it;
    - [json_loads]: [json.loads(text)];
    - [decode_function_input abi raw_tx]: lines 62-64 and the two reads after
      them, that is [Web3().eth.contract(abi=abi).decode_function_input(raw_tx)]
      giving [fn_name] and [dict(params)], or whatever those lines raise;
    - [http n req]: the answer to [req] when it is the [n]-th request sent
      ([requests.post], [requests.get]), or the transport exception;
    - [image_open]: [Image.open(io.BytesIO(content))];
    - [st_rejects ev]: the exception, if any, that Streamlit raises when asked
      to draw a value that came from outside ([st.json], [st.metric] on the
      gas figure, [st.dataframe], [st.image]). *)
Record libs : Type := Libs {
  py_str : pyval -> string;
  json_loads : string -> outcome pyval;
  decode_function_input : pyval -> string -> outcome (string * list (string * pyval));
  http : nat -> net_request -> outcome response;
  image_open : string -> outcome image;
  st_rejects : ui_event -> option exn
}.

(** ** The script *)

Definition DUNE_API_URL : string := "https://api.sim.dune.com/v1/simulate".

Definition CHAIN_IDS : list (string * Z) :=
  [ ("Ethereum", 1); ("Polygon", 137); ("BNB Smart Chain", 56);
    ("Arbitrum", 42161); ("Optimism", 10); ("Avalanche C-Chain", 43114);
    ("Fantom", 250); ("Celo", 42220); ("Gnosis (xDAI)", 100);
    ("zkSync Era", 324); ("Base", 8453); ("Linea", 59144);
    ("Polygon zkEVM", 1101); ("Scroll", 534352); ("Mantle", 5000);
    ("Kava", 2222); ("Metis", 1088); ("Moonbeam", 1284);
    ("Moonriver", 1285); ("Harmony", 1666600000); ("Cronos", 25);
    ("Aurora", 1313161554) ]%Z.

Fixpoint chain_find (name : string) (table : list (string * Z)) : option Z :=
  match table with
  | [] => None
  | (k, v) :: table' => if String.eqb name k then Some v else chain_find name table'
  end.

(** [CHAIN_IDS[chain]]. *)
Definition chain_id_of (chain : string) : outcome Z :=
  match chain_find chain CHAIN_IDS with
  | Some c => Ok c
  | None => Raise (KeyError chain)
  end.

Definition str_truthy (s : string) : bool := negb (String.eqb s "").

Definition HIGH_GAS : string := "⚠️ High gas usage (>500k)".
Definition NEW_APPROVALS : string := "🔓 New token approvals detected".

Definition obind {A B} (o : outcome A) (k : A -> outcome B) : outcome B :=
  match o with
  | Ok a => k a
  | Raise e => Raise e
  end.

(** Risk detection (lines 138-142): the list [risks] that the two tests
    build, or the exception that building it raises. *)
Definition risks (result : pyval) : outcome (list string) :=
  obind (py_get result "gas_used" (PInt 0)) (fun gas_used =>
  obind (py_gt_const gas_used 500000) (fun high =>
  let risks1 := if high then [HIGH_GAS] else [] in
  obind (py_in "approvals" result) (fun has_approvals =>
  Ok (if has_approvals then risks1 ++ [NEW_APPROVALS] else risks1)))).

(** Lines 144-147: [if risks:] a subheader, then one [st.warning] per risk. *)
Definition render_risks (rs : list string) : M unit :=
  match rs with
  | [] => ret tt
  | _ => emit (UiSubheader "🚨 Risks") ;;;
         for_enumerate (fun _ risk => emit (UiWarning risk)) 0 rs
  end.

(** Lines 137-147: the risk section of the result view. *)
Definition risk_detection (result : pyval) : M unit :=
  rs <- lift (risks result) ;;
  render_risks rs.

(** [isinstance(v, dict)]. *)
Definition isinstance_dict (v : pyval) : bool :=
  match v with
  | PDict _ => true
  | _ => false
  end.

Section Script.
Context (L : libs).

(** A drawing call on a value that came from outside. *)
Definition st_data (ev : ui_event) : M unit :=
  match st_rejects L ev with
  | Some e => lift (Raise e)
  | None => emit ev
  end.

Definition send (req : net_request) : M response :=
  fun w => (http L (List.length (net w)) req, add_net req w).

Definition bearer (api_key : string) : list (string * string) :=
  [("Authorization", ("Bearer " ++ api_key)%string)].

(** The body of [simulate_tx] (lines 39-44). *)
Definition simulate_tx_body (api_key tx_data : string) (chain_id : Z) : M pyval :=
  let headers := bearer api_key in
  let payload := PDict [("transaction", PDict [("data", PStr tx_data)]);
                        ("chain_id", PInt chain_id)] in
  resp <- send (HttpPost DUNE_API_URL headers payload) ;;
  lift (json_body resp).

(** [@st.cache_data(ttl=300) def simulate_tx]. *)
Definition simulate_tx (now : Z) (api_key tx_data : string) (chain_id : Z) : M pyval :=
  log_call (CallSimulate (api_key, tx_data, chain_id)) ;;;
  cache_data sim_key_eqb (Some 300%Z) sim_cache set_sim_cache now
    (api_key, tx_data, chain_id) (simulate_tx_body api_key tx_data chain_id).

(** The body of [get_nft_image] (lines 48-54). *)
Definition get_nft_image_body (api_key : string) (contract_address token_id : pyval)
  : M (option image) :=
  resp <- send (HttpGet ("https://api.sim.dune.com/v1/nft/" ++ py_str L contract_address
                         ++ "/" ++ py_str L token_id)
                        (bearer api_key)) ;;
  if Z.eqb (status_code resp) 200
  then img <- lift (image_open L (content resp)) ;; ret (Some img)
  else ret None.

(** [@st.cache_data def get_nft_image]. *)
Definition get_nft_image (now : Z) (api_key : string) (contract_address token_id : pyval)
  : M (option image) :=
  log_call (CallNftImage (api_key, contract_address, token_id)) ;;;
  cache_data img_key_eqb None img_cache set_img_cache now
    (api_key, contract_address, token_id)
    (get_nft_image_body api_key contract_address token_id).

(** [decode_abi_if_provided] (lines 56-71).  [abi_json] is [None] or a
    string; the result is the dict of line 65 or the string [raw_tx]. *)
Definition decode_abi_if_provided (raw_tx : string) (abi_json : option string) : M pyval :=
  match abi_json with
  | None => ret (PStr raw_tx)
  | Some abi_text =>
      if negb (str_truthy abi_text) then ret (PStr raw_tx)
      else
        try_except
          (abi <- lift (json_loads L abi_text) ;;
           decoded <- lift (decode_function_input L abi raw_tx) ;;
           ret (PDict [("function", PStr (fst decoded));
                       ("params", PDict (snd decoded))]))
          (fun e =>
             emit (UiWarning ("ABI decoding failed: " ++ exn_str e)) ;;;
             ret (PStr raw_tx))
  end.

(** The widgets' values in one run of the script, and whether the button was
    pressed. *)
Record inputs : Type := Inputs {
  api_key : string;
  chain : string;
  raw_tx : string;
  abi_json : string;
  pressed : bool
}.

(** Lines 89-94: the ABI tab. *)
Definition abi_tab (inp : inputs) : M unit :=
  if str_truthy (abi_json inp) then
    decoded <- decode_abi_if_provided (raw_tx inp) (Some (abi_json inp)) ;;
    if isinstance_dict decoded then st_data (UiJson decoded) else ret tt
  else ret tt.

(** Lines 112-114. *)
Definition render_basic_info (result : pyval) : M unit :=
  emit (UiColumns 2) ;;;
  success <- lift (py_get result "success" PNone) ;;
  emit (UiCol 0 (UiMetric "Status"
                   (PStr (if py_truthy success then "✅ Success" else "❌ Reverted")))) ;;;
  gas_used <- lift (py_get result "gas_used" (PStr "N/A")) ;;
  st_data (UiCol 1 (UiMetric "Gas Used" gas_used)).

(** Lines 117-119. *)
Definition render_balance_changes (result : pyval) : M unit :=
  has <- lift (py_in "balance_changes" result) ;;
  if has then
    emit (UiSubheader "💸 Balance Changes") ;;;
    changes <- lift (py_getitem result "balance_changes") ;;
    st_data (UiDataframe changes)
  else ret tt.

(** The body of the loop of lines 126-135, in column [i]. *)
Definition render_nft_transfer (now : Z) (api_key : string) (i : nat) (transfer : pyval)
  : M unit :=
  contract_address <- lift (py_getitem transfer "contract_address") ;;
  token_id <- lift (py_getitem transfer "token_id") ;;
  img <- get_nft_image now api_key contract_address token_id ;;
  match img with
  | Some im => st_data (UiCol i (UiImage im 100))
  | None => ret tt
  end ;;;
  token_id' <- lift (py_getitem transfer "token_id") ;;
  emit (UiCol i (UiCaption ("Token #" ++ py_str L token_id'))).

(** Lines 122-135. *)
Definition render_nft_transfers (now : Z) (api_key : string) (result : pyval) : M unit :=
  nft_transfers <- lift (py_get result "nft_transfers" (PList [])) ;;
  if py_truthy nft_transfers then
    emit (UiSubheader "🖼️ NFT Transfers") ;;;
    emit (UiColumns 3) ;;;
    shown <- lift (py_slice_to 3 nft_transfers) ;;
    for_enumerate (render_nft_transfer now api_key) 0 shown
  else ret tt.

(** Lines 111-147: the branch taken when the answer has no [error]. *)
Definition render_result (now : Z) (api_key : string) (result : pyval) : M unit :=
  render_basic_info result ;;;
  render_balance_changes result ;;;
  render_nft_transfers now api_key result ;;;
  risk_detection result.

(** Lines 102-150: the [try] of the button handler. *)
Definition simulate_and_render (now : Z) (inp : inputs) : M unit :=
  try_except
    (chain_id <- lift (chain_id_of (chain inp)) ;;
     result <- simulate_tx now (api_key inp) (raw_tx inp) chain_id ;;
     emit (UiSubheader "📊 Results") ;;;
     has_error <- lift (py_in "error" result) ;;
     if has_error then
       err <- lift (py_getitem result "error") ;;
       emit (UiError ("❌ " ++ py_str L err))
     else render_result now (api_key inp) result)
    (fun e => emit (UiError ("💥 API Error: " ++ exn_str e))).

(** [st.button(..., disabled=not (api_key and raw_tx))]: a disabled button
    cannot be pressed. *)
Definition button_fires (inp : inputs) : bool :=
  let disabled := negb (str_truthy (api_key inp) && str_truthy (raw_tx inp)) in
  pressed inp && negb disabled.

(** Lines 97-150. *)
Definition simulate_button (now : Z) (inp : inputs) : M unit :=
  if button_fires inp then
    if negb (String.prefix "0x" (raw_tx inp))
    then emit (UiError "Transaction data must start with '0x'")
    else simulate_and_render now inp
  else ret tt.

(** One run of the script, top to bottom, at time [now].  The widgets that
    only collect input (sidebar, tabs, text areas, the button itself) are
    the record [inputs]; the spinner, which is gone when the run ends, is
    not drawn. *)
Definition script (now : Z) (inp : inputs) : M unit :=
  emit (UiTitle "🔮 Tx Simulator Pro") ;;;
  emit (UiMarkdown "Simulate EVM transactions before executing them.") ;;;
  abi_tab inp ;;;
  simulate_button now inp ;;;
  emit (UiMarkdown "---") ;;;
  emit (UiCaption "Uses Dune SIM API | Rate limits apply").

End Script.

(** ** Vocabulary of the statements *)

Definition decode_warning (e : exn) : ui_event :=
  UiWarning ("ABI decoding failed: " ++ exn_str e).

Definition decoded_dict (fn_name : string) (params : list (string * pyval)) : pyval :=
  PDict [("function", PStr fn_name); ("params", PDict params)].

Definition draw (evs : list ui_event) (w : world) : world :=
  World (ui w ++ evs) (net w) (calls w) (sim_cache w) (img_cache w).

(** What the risk section draws for a list of risks. *)
Definition risk_events (rs : list string) : list ui_event :=
  match rs with
  | [] => []
  | _ => UiSubheader "🚨 Risks" :: map UiWarning rs
  end.

(** [gas_used] is missing or holds a number. *)
Definition gas_used_numeric (d : list (string * pyval)) : bool :=
  match dict_find "gas_used" d with
  | None | Some (PInt _) | Some (PBool _) | Some (PFloat _) => true
  | Some _ => false
  end.

(** The request that [simulate_tx] sends for a key. *)
Definition simulate_request (k : sim_key) : net_request :=
  let '(api_key, tx_data, chain_id) := k in
  HttpPost DUNE_API_URL (bearer api_key)
    (PDict [("transaction", PDict [("data", PStr tx_data)]);
            ("chain_id", PInt chain_id)]).

Definition simulate_at (L : libs) (now : Z) (k : sim_key) : M pyval :=
  let '(api_key, tx_data, chain_id) := k in
  simulate_tx L now api_key tx_data chain_id.

(** A sequence of calls of [simulate_tx], each at its own time; every call
    is reported with its outcome and the number of requests it sent. *)
Fixpoint run_simulations (L : libs) (cs : list (Z * sim_key)) (w : world)
  : list (outcome pyval * nat) * world :=
  match cs with
  | [] => ([], w)
  | (now, k) :: cs' =>
      let r := simulate_at L now k w in
      let rest := run_simulations L cs' (snd r) in
      ((fst r, List.length (net (snd r)) - List.length (net w)) :: fst rest, snd rest)
  end.

Definition same_outside_ui (w w' : world) : Prop :=
  net w' = net w /\ calls w' = calls w /\
  sim_cache w' = sim_cache w /\ img_cache w' = img_cache w.

(** [m] sends no request, calls neither decorated function and leaves both
    caches alone, from every world. *)
Definition ui_only {A} (m : M A) : Prop :=
  forall w, same_outside_ui w (snd (m w)).

Definition prefix_error : ui_event :=
  UiError "Transaction data must start with '0x'".

Definition sim_key_of (inp : inputs) (chain_id : Z) : sim_key :=
  (api_key inp, raw_tx inp, chain_id).

(** The world once the handler has called [simulate_tx] and the request has
    gone out. *)
Definition after_request (k : sim_key) (w : world) : world :=
  add_net (simulate_request k) (add_call (CallSimulate k) w).

Definition api_error (e : exn) : ui_event :=
  UiError ("💥 API Error: " ++ exn_str e).

Definition in_band_error (L : libs) (err : pyval) : ui_event :=
  UiError ("❌ " ++ py_str L err).

(** The keys of the calls of [get_nft_image] in a call log, in order. *)
Definition nft_calls (cs : list call) : list img_key :=
  flat_map (fun c => match c with
                     | CallNftImage k => [k]
                     | CallSimulate _ => []
                     end) cs.

(** The entries of the answer's [nft_transfers] list. *)
Definition transfer_entries (result : pyval) : list pyval :=
  match py_get result "nft_transfers" (PList []) with
  | Ok (PList l) | Ok (PTuple l) => l
  | _ => []
  end.

(** The [i]-th call went out for the [i]-th entry of [entries]. *)
Definition fetched_in_order (api : string) (entries : list pyval) (fetched : list img_key)
  : Prop :=
  forall i key, nth_error fetched i = Some key ->
    exists t a tid,
      nth_error entries i = Some t /\
      py_getitem t "contract_address" = Ok a /\
      py_getitem t "token_id" = Ok tid /\
      key = (api, a, tid).

(** [m] calls [get_nft_image] at most three times, each time for the entry
    of [entries] at the position of the call, and makes no other call. *)
Definition previews {A} (api : string) (entries : list pyval) (m : M A) : Prop :=
  forall w, exists fetched,
    calls (snd (m w)) = calls w ++ map CallNftImage fetched /\
    List.length fetched <= 3 /\
    fetched_in_order api entries fetched.

(** [m] adds at most [n] calls of [get_nft_image] to the call log. *)
Definition fetches {A} (n : nat) (m : M A) : Prop :=
  forall w, exists fetched,
    nft_calls (calls (snd (m w))) = nft_calls (calls w) ++ fetched /\
    List.length fetched <= n.

(** The hex digits of the call data, as [HexBytes] reads a string: an
    optional [0x] in front is dropped. *)
Definition calldata_hex (raw_tx : string) : string :=
  if String.prefix "0x" raw_tx || String.prefix "0X" raw_tx
  then String.substring 2 (String.length raw_tx - 2) raw_tx
  else raw_tx.

(** The number of bytes the call data holds (an odd digit count is padded). *)
Definition calldata_nbytes (raw_tx : string) : nat :=
  Nat.div2 (S (String.length (calldata_hex raw_tx))).

(** *** The decoding library, from the spec *)

(** Modelled from the spec: the two primitives of the ABI decoding that
    line 64 hands to web3's [decode_function_input], a library that is not
    part of the repository: the keccak-256 hash of a signature, and the
    positional decoding of the argument bytes by the declared types of the
    inputs (a failure for a type it does not support). *)
Record codec : Type := Codec {
  keccak256 : string -> list N;
  decode_arguments : list (string * string) -> list N -> outcome (list pyval)
}.

Definition ValueError (msg : string) : exn := Exn "ValueError" msg.

(** Modelled from the spec: the value of one hex digit of the call data. *)
Definition hex_value (c : ascii) : option N :=
  let n := N_of_ascii c in
  if (48 <=? n)%N && (n <=? 57)%N then Some (n - 48)%N
  else if (97 <=? n)%N && (n <=? 102)%N then Some (n - 87)%N
  else if (65 <=? n)%N && (n <=? 70)%N then Some (n - 55)%N
  else None.

(** Modelled from the spec: the bytes that a run of hex digits spells, two
    digits to the byte; nothing for a digit that is not hex. *)
Fixpoint hex_pairs (digits : list ascii) : option (list N) :=
  match digits with
  | [] => Some []
  | [_] => None
  | hi :: lo :: rest =>
      match hex_value hi, hex_value lo, hex_pairs rest with
      | Some h, Some l, Some bs => Some ((16 * h + l)%N :: bs)
      | _, _, _ => None
      end
  end.

(** Modelled from the spec: the bytes of the raw call data, a hex string
    (an odd digit count is padded in front, as [calldata_nbytes] counts). *)
Definition calldata_bytes (raw_tx : string) : option (list N) :=
  let digits := list_ascii_of_string (calldata_hex raw_tx) in
  hex_pairs (if Nat.odd (List.length digits) then "0"%char :: digits else digits).

(** Modelled from the spec: one input of a function descriptor, its [name]
    and its [type]. *)
Definition abi_input (v : pyval) : outcome (string * string) :=
  obind (py_getitem v "name") (fun name =>
  obind (py_getitem v "type") (fun kind =>
  match name, kind with
  | PStr n, PStr t => Ok (n, t)
  | _, _ => Raise (ValueError "malformed ABI input")
  end)).

Fixpoint outcome_map {A B} (f : A -> outcome B) (l : list A) : outcome (list B) :=
  match l with
  | [] => Ok []
  | x :: l' => obind (f x) (fun y => obind (outcome_map f l') (fun ys => Ok (y :: ys)))
  end.

(** Modelled from the spec: one descriptor of the ABI array.  A descriptor
    of type [function] gives a name and its inputs; any other descriptor
    (an event, the constructor) is passed over. *)
Definition abi_function (entry : pyval)
  : outcome (option (string * list (string * string))) :=
  obind (py_getitem entry "type") (fun kind =>
  match kind with
  | PStr t =>
      if String.eqb t "function" then
        obind (py_getitem entry "name") (fun name =>
        obind (py_getitem entry "inputs") (fun ins =>
        match name, ins with
        | PStr n, PList l =>
            obind (outcome_map abi_input l) (fun l' => Ok (Some (n, l')))
        | _, _ => Raise (ValueError "malformed ABI function")
        end))
      else Ok None
  | _ => Raise (ValueError "malformed ABI entry")
  end).

(** Modelled from the spec: the functions of an ABI, which must be a JSON
    array of descriptors. *)
Definition abi_functions (abi : pyval)
  : outcome (list (string * list (string * string))) :=
  match abi with
  | PList entries =>
      obind (outcome_map abi_function entries) (fun fs =>
      Ok (flat_map (fun o => match o with Some f => [f] | None => [] end) fs))
  | _ => Raise (ValueError "the ABI is not a JSON array")
  end.

(** Modelled from the spec: the canonical signature [name(type1,type2,...)]. *)
Definition canonical_signature (name : string) (ins : list (string * string)) : string :=
  name ++ "(" ++ String.concat "," (map snd ins) ++ ")".

(** Modelled from the spec: the selector of a function, the hash of its
    canonical signature truncated to four bytes. *)
Definition function_selector (C : codec) (f : string * list (string * string)) : list N :=
  firstn 4 (keccak256 C (canonical_signature (fst f) (snd f))).

Fixpoint bytes_eqb (x y : list N) : bool :=
  match x, y with
  | [], [] => true
  | a :: x', b :: y' => N.eqb a b && bytes_eqb x' y'
  | _, _ => false
  end.

(** Modelled from the spec: the first four bytes of the call data, the
    selector, and the bytes that remain; nothing for call data shorter than
    four bytes. *)
Definition split_selector (bytes : list N) : option (list N * list N) :=
  match bytes with
  | b0 :: b1 :: b2 :: b3 :: args => Some ([b0; b1; b2; b3], args)
  | _ => None
  end.

(** Modelled from the spec: [decode_function_input] of web3 (not part of
    the repository).  The call data's selector is matched against the
    selector of each function of the ABI, the first match names the function
    invoked, and the remaining bytes are decoded positionally into a mapping
    from the inputs' names.  Call data that is not hex, call data without a
    full selector, an ABI that is not an array of descriptors, a selector
    that matches no function and arguments that cannot be decoded are
    failures. *)
Definition spec_decode_function_input (C : codec) (abi : pyval) (raw_tx : string)
  : outcome (string * list (string * pyval)) :=
  match calldata_bytes raw_tx with
  | None => Raise (ValueError "the call data is not a hex string")
  | Some bytes =>
      match split_selector bytes with
      | None => Raise (ValueError "the call data is shorter than a selector")
      | Some (selector, args) =>
          obind (abi_functions abi) (fun fs =>
          match find (fun f => bytes_eqb (function_selector C f) selector) fs with
          | None => Raise (ValueError "Could not find any function with matching selector")
          | Some f =>
              obind (decode_arguments C (snd f) args) (fun values =>
              Ok (fst f, combine (map fst (snd f)) values))
          end)
      end
  end.

(** The libraries [L] with the decoding library as the spec describes it. *)
Definition with_spec_decoder (C : codec) (L : libs) : libs := {|
  py_str := py_str L;
  json_loads := json_loads L;
  decode_function_input := spec_decode_function_input C;
  http := http L;
  image_open := image_open L;
  st_rejects := st_rejects L
|}.

(** [m] relates every world to the world it leaves behind by [R]. *)
Definition steps (R : world -> world -> Prop) {A} (m : M A) : Prop :=
  forall w, R w (snd (m w)).

(** A request for an NFT image, authorised with [api]. *)
Definition nft_get (api : string) (req : net_request) : Prop :=
  exists path,
    req = HttpGet ("https://api.sim.dune.com/v1/nft/" ++ path) (bearer api).

(** From [w] to [w'] only image requests were sent, and the simulation
    cache was left alone. *)
Definition only_gets (api : string) (w w' : world) : Prop :=
  (exists l, net w' = net w ++ l /\ Forall (nft_get api) l) /\
  sim_cache w' = sim_cache w.

(** From [w] to [w'] at most one simulation request was sent, the one for
    the inputs, followed by image requests only. *)
Definition run_requests (inp : inputs) (w w' : world) : Prop :=
  exists l_post l_get,
    net w' = net w ++ l_post ++ l_get /\
    (l_post = [] \/
     exists c, chain_id_of (chain inp) = Ok c /\
               l_post = [simulate_request (sim_key_of inp c)]) /\
    Forall (nft_get (api_key inp)) l_get.

(** The simulation cache of [w] holds, for the inputs on chain [c], an
    entry that is fresh at [now]. *)
Definition has_fresh_answer (inp : inputs) (c now : Z) (w : world) : Prop :=
  exists stored r,
    cache_find sim_key_eqb (sim_key_of inp c) (sim_cache w) = Some (stored, r) /\
    (now < stored + 300)%Z.

(** [t[key]], or [None] where the subscript raises. *)
Definition field (t : pyval) (key : string) : pyval :=
  match py_getitem t key with
  | Ok v => v
  | Raise _ => PNone
  end.

Definition transfer_key (api : string) (t : pyval) : img_key :=
  (api, field t "contract_address", field t "token_id").

(** An entry of [nft_transfers] from which both fields can be read. *)
Definition well_formed_transfer (t : pyval) : Prop :=
  exists a tid,
    py_getitem t "contract_address" = Ok a /\ py_getitem t "token_id" = Ok tid.

(** Libraries under which no call made while drawing the NFT section
    raises: every request is answered, every image opens, every drawing is
    accepted. *)
Definition well_behaved (L : libs) : Prop :=
  (forall n req, exists resp, http L n req = Ok resp) /\
  (forall data, exists img, image_open L data = Ok img) /\
  (forall ev, st_rejects L ev = None).

(** The last two elements the script draws. *)
Definition footer : list ui_event :=
  [UiMarkdown "---"; UiCaption "Uses Dune SIM API | Rate limits apply"].

Fixpoint distinct_strings (l : list string) : bool :=
  match l with
  | [] => true
  | x :: l' => negb (existsb (String.eqb x) l') && distinct_strings l'
  end.

Fixpoint distinct_ids (l : list Z) : bool :=
  match l with
  | [] => true
  | x :: l' => negb (existsb (Z.eqb x) l') && distinct_ids l'
  end.

(** ** Sample library behaviours

    Concrete libraries on which the script can be run: they instantiate the
    theorems below and exhibit the behaviours that some of them single out. *)

Definition sample_str (v : pyval) : string :=
  match v with
  | PStr s => s
  | PInt 1 => "1"
  | PInt 2 => "2"
  | _ => "?"
  end.

Definition sample_result : pyval :=
  PDict [("success", PBool true); ("gas_used", PInt 21000)].

(** An endpoint that answers every simulation with [sample_result] and has
    no image for any token; an ABI library that knows [transfer]. *)
Definition sample_libs : libs := {|
  py_str := sample_str;
  json_loads := fun text =>
    if String.eqb text "[]" then Ok (PList [])
    else Raise (Exn "JSONDecodeError" "Expecting value: line 1 column 1 (char 0)");
  decode_function_input := fun _ raw_tx =>
    if Nat.ltb (calldata_nbytes raw_tx) 4
    then Raise (Exn "ValueError" "Could not find any function with matching selector")
    else Ok ("transfer", [("to", PStr "0x00"); ("value", PInt 1)]);
  http := fun _ req =>
    match req with
    | HttpPost _ _ _ => Ok (Response 200 "" (Ok sample_result))
    | HttpGet _ _ => Ok (Response 404 "" (Raise (Exn "JSONDecodeError" "Expecting value")))
    end;
  image_open := fun data => Ok (Image data);
  st_rejects := fun _ => None
|}.

(** An endpoint that answers with HTTP 500 and a JSON body that has no
    [error] field. *)
Definition server_error_libs : libs := {|
  py_str := sample_str;
  json_loads := json_loads sample_libs;
  decode_function_input := decode_function_input sample_libs;
  http := fun _ _ =>
    Ok (Response 500 "" (Ok (PDict [("message", PStr "Internal Server Error")])));
  image_open := image_open sample_libs;
  st_rejects := fun _ => None
|}.

(** An endpoint that answers with HTTP 400 and a JSON body that has an
    [error] field. *)
Definition bad_request_libs : libs := {|
  py_str := sample_str;
  json_loads := json_loads sample_libs;
  decode_function_input := decode_function_input sample_libs;
  http := fun _ _ =>
    Ok (Response 400 "" (Ok (PDict [("error", PStr "invalid transaction")])));
  image_open := image_open sample_libs;
  st_rejects := fun _ => None
|}.

Definition transfer (token_id : Z) : pyval :=
  PDict [("contract_address", PStr "0xnft"); ("token_id", PInt token_id)].

(** An endpoint whose answer reports four NFT transfers. *)
Definition four_transfers_libs : libs := {|
  py_str := sample_str;
  json_loads := json_loads sample_libs;
  decode_function_input := decode_function_input sample_libs;
  http := fun _ req =>
    match req with
    | HttpPost _ _ _ =>
        Ok (Response 200 ""
              (Ok (PDict [("success", PBool true);
                          ("nft_transfers",
                           PList [transfer 1; transfer 2; transfer 3; transfer 4])])))
    | HttpGet _ _ => Ok (Response 404 "" (Raise (Exn "JSONDecodeError" "Expecting value")))
    end;
  image_open := image_open sample_libs;
  st_rejects := fun _ => None
|}.

(** An endpoint that cannot be reached. *)
Definition unreachable_libs : libs := {|
  py_str := sample_str;
  json_loads := json_loads sample_libs;
  decode_function_input := decode_function_input sample_libs;
  http := fun _ _ => Raise (Exn "ConnectionError" "Max retries exceeded");
  image_open := image_open sample_libs;
  st_rejects := fun _ => None
|}.

Definition sample_inputs (tx : string) : inputs :=
  Inputs "key" "Ethereum" tx "" true.

Definition sample_key : sim_key := ("key", "0xa9059cbb", 1%Z).

(** A codec that knows the selector of [transfer(address,uint256)] and
    reads every argument as the integer of its first byte. *)
Definition sample_codec : codec := {|
  keccak256 := fun signature =>
    if String.eqb signature "transfer(address,uint256)"
    then [169; 5; 156; 187; 0; 0; 0; 0]%N
    else [0; 0; 0; 0; 0; 0; 0; 0]%N;
  decode_arguments := fun ins args =>
    Ok (map (fun _ => PInt (Z.of_N (hd 0%N args))) ins)
|}.

Definition transfer_abi : pyval :=
  PList [PDict [("type", PStr "event"); ("name", PStr "Transfer")];
         PDict [("type", PStr "function"); ("name", PStr "transfer");
                ("inputs",
                 PList [PDict [("name", PStr "to"); ("type", PStr "address")];
                        PDict [("name", PStr "value"); ("type", PStr "uint256")]])]].

(** An endpoint whose answer is a JSON list. *)
Definition list_body_libs : libs := {|
  py_str := sample_str;
  json_loads := json_loads sample_libs;
  decode_function_input := decode_function_input sample_libs;
  http := fun _ _ => Ok (Response 200 "" (Ok (PList [PStr "unexpected"])));
  image_open := image_open sample_libs;
  st_rejects := fun _ => None
|}.

(** The world after one simulation at time 0 on the sample endpoint. *)
Definition world_with_answer : world :=
  snd (simulate_at sample_libs 0 sample_key empty_world).

Definition four_transfers : list pyval :=
  [transfer 1; transfer 2; transfer 3; transfer 4].

(** * Properties *)

Lemma Ok_inj {A} (a b : A) : Ok a = Ok b -> a = b.
Proof. intros H. now inversion H. Qed.

(** ** The ABI decoder *)

Lemma hex_pairs_length :
  forall (digits : list ascii) (bytes : list N),
    hex_pairs digits = Some bytes -> 2 * List.length bytes = List.length digits.
Proof.
  fix IH 1. intros [ | hi [ | lo rest]] bytes; cbn [hex_pairs].
  - intros H. injection H as <-. reflexivity.
  - discriminate.
  - destruct (hex_value hi) as [h | ]; [ | discriminate ].
    destruct (hex_value lo) as [l | ]; [ | discriminate ].
    destruct (hex_pairs rest) as [bs | ] eqn:Hrest; [ | discriminate ].
    intros H. injection H as <-. cbn [List.length].
    specialize (IH rest bs Hrest). lia.
Qed.

Lemma list_ascii_length (s : string) :
  List.length (list_ascii_of_string s) = String.length s.
Proof. induction s as [ | c s IH]; cbn; [ reflexivity | now rewrite IH ]. Qed.

(** Call data that holds fewer than four bytes spells fewer than four. *)
Lemma calldata_bytes_short (raw_tx : string) (bytes : list N) :
  calldata_nbytes raw_tx < 4 ->
  calldata_bytes raw_tx = Some bytes ->
  List.length bytes < 4.
Proof.
  unfold calldata_nbytes, calldata_bytes.
  rewrite <- list_ascii_length.
  set (digits := list_ascii_of_string (calldata_hex raw_tx)).
  intros Hshort Hbytes. apply hex_pairs_length in Hbytes.
  assert (Hdigits : List.length digits <= 6).
  { revert Hshort.
    destruct (List.length digits) as [ | [ | [ | [ | [ | [ | [ | n]]]]]]];
      cbn; try lia.
    generalize (Nat.div2 n). intros m Hm. lia. }
  destruct (Nat.odd (List.length digits)); cbn [List.length] in Hbytes; lia.
Qed.

(** The decoding library of the spec finds no selector in call data shorter
    than four bytes, whatever the ABI, the hash and the argument decoder. *)
Lemma spec_decode_short_calldata (C : codec) (abi : pyval) (raw_tx : string) :
  calldata_nbytes raw_tx < 4 ->
  exists e, spec_decode_function_input C abi raw_tx = Raise e.
Proof.
  intros Hshort. unfold spec_decode_function_input.
  destruct (calldata_bytes raw_tx) as [bytes | ] eqn:Hbytes; [ | eauto ].
  pose proof (calldata_bytes_short raw_tx bytes Hshort Hbytes) as Hlen.
  destruct bytes as [ | b0 [ | b1 [ | b2 [ | b3 args]]]]; cbn [split_selector];
    eauto.
  cbn [List.length] in Hlen. lia.
Qed.

Section DecoderFacts.
Context (L : libs).

(** With an ABI text that is not empty, the decoder's result is read off the
    two library calls of its [try] block. *)
Lemma decode_with_abi (raw_tx abi_text : string) (w : world) :
  str_truthy abi_text = true ->
  decode_abi_if_provided L raw_tx (Some abi_text) w =
  match json_loads L abi_text with
  | Raise e => (Ok (PStr raw_tx), add_ui (decode_warning e) w)
  | Ok abi =>
      match decode_function_input L abi raw_tx with
      | Raise e => (Ok (PStr raw_tx), add_ui (decode_warning e) w)
      | Ok (fn_name, params) => (Ok (decoded_dict fn_name params), w)
      end
  end.
Proof.
  intros Habi.
  unfold decode_abi_if_provided, try_except, bind, lift.
  rewrite Habi. cbn [negb].
  destruct (json_loads L abi_text) as [abi | e]; [ | reflexivity ].
  destruct (decode_function_input L abi raw_tx) as [[fn_name params] | e];
    reflexivity.
Qed.

(** The decoder touches nothing but the drawing log, to which it adds at
    most the warning. *)
Lemma decode_frame (raw_tx : string) (abi_json : option string) (w : world) :
  let w' := snd (decode_abi_if_provided L raw_tx abi_json w) in
  net w' = net w /\ calls w' = calls w /\
  sim_cache w' = sim_cache w /\ img_cache w' = img_cache w.
Proof.
  destruct abi_json as [abi_text | ]; [ | cbn; auto ].
  destruct (str_truthy abi_text) eqn:Habi.
  - cbv zeta. rewrite (decode_with_abi _ _ _ Habi).
    destruct (json_loads L abi_text) as [abi | e]; [ | cbn; auto ].
    destruct (decode_function_input L abi raw_tx) as [[fn_name params] | e];
      cbn; auto.
  - unfold decode_abi_if_provided. rewrite Habi. cbn; auto.
Qed.

(** C5.  When the ABI input is absent ([None]) or the empty string, the
    decoder returns the call data as it was given, and leaves the world as it
    was: no library is consulted and nothing is drawn. *)
Theorem decode_without_abi_is_identity (raw_tx : string) (w : world) :
  decode_abi_if_provided L raw_tx None w = (Ok (PStr raw_tx), w) /\
  decode_abi_if_provided L raw_tx (Some "") w = (Ok (PStr raw_tx), w).
Proof.
  split.
  - unfold decode_abi_if_provided, ret. reflexivity.
  - unfold decode_abi_if_provided. cbn [str_truthy String.eqb negb].
    unfold ret. reflexivity.
Qed.

(** C1.  With a non-empty ABI text the decoder always returns and never
    raises.  When parsing the ABI fails, or when matching and decoding the
    call data fails, it draws one warning that carries the failure's text
    and returns the call data unchanged.  With the decoding library as the
    spec describes it, call data shorter than four bytes always takes that
    path: it holds no selector to match. *)
Theorem decode_never_raises (raw_tx abi_text : string) (w : world) :
  str_truthy abi_text = true ->
  (exists v w', decode_abi_if_provided L raw_tx (Some abi_text) w = (Ok v, w')) /\
  (forall e, json_loads L abi_text = Raise e ->
     decode_abi_if_provided L raw_tx (Some abi_text) w
     = (Ok (PStr raw_tx), add_ui (decode_warning e) w)) /\
  (forall abi e, json_loads L abi_text = Ok abi ->
     decode_function_input L abi raw_tx = Raise e ->
     decode_abi_if_provided L raw_tx (Some abi_text) w
     = (Ok (PStr raw_tx), add_ui (decode_warning e) w)) /\
  (forall C, calldata_nbytes raw_tx < 4 ->
     exists e, decode_abi_if_provided (with_spec_decoder C L) raw_tx (Some abi_text) w
               = (Ok (PStr raw_tx), add_ui (decode_warning e) w)).
Proof.
  intros Habi. rewrite (decode_with_abi _ _ _ Habi).
  repeat split.
  - destruct (json_loads L abi_text) as [abi | e]; [ | eauto ].
    destruct (decode_function_input L abi raw_tx) as [[fn_name params] | e]; eauto.
  - intros e He. rewrite He. reflexivity.
  - intros abi e Habi_ok He. rewrite Habi_ok, He. reflexivity.
  - intros C Hshort.
    unfold decode_abi_if_provided, try_except, bind, lift.
    rewrite Habi. cbn [negb json_loads decode_function_input with_spec_decoder].
    destruct (json_loads L abi_text) as [abi | e];
      [ | eexists; reflexivity ].
    destruct (spec_decode_short_calldata C abi raw_tx Hshort) as [e He].
    rewrite He. eexists. reflexivity.
Qed.

(** C9.  Whatever the inputs, the decoder returns one of two values that a
    caller tells apart with [isinstance(decoded, dict)]: a dict with exactly
    the keys [function] and [params], which it returns only when both
    library calls succeeded, or the call data itself, a string. *)
Theorem decode_result_is_tagged (raw_tx : string) (abi_json : option string) (w : world) :
  exists v w',
    decode_abi_if_provided L raw_tx abi_json w = (Ok v, w') /\
    ((isinstance_dict v = true /\
      exists abi_text abi fn_name params,
        abi_json = Some abi_text /\
        json_loads L abi_text = Ok abi /\
        decode_function_input L abi raw_tx = Ok (fn_name, params) /\
        v = decoded_dict fn_name params)
     \/ (isinstance_dict v = false /\ v = PStr raw_tx)).
Proof.
  destruct abi_json as [abi_text | ].
  - destruct (str_truthy abi_text) eqn:Habi.
    + rewrite (decode_with_abi _ _ _ Habi).
      destruct (json_loads L abi_text) as [abi | e] eqn:Hjson.
      * destruct (decode_function_input L abi raw_tx) as [[fn_name params] | e] eqn:Hdec.
        -- do 2 eexists. split; [ reflexivity | left ].
           split; [ reflexivity | ].
           exists abi_text, abi, fn_name, params. auto.
        -- do 2 eexists. split; [ reflexivity | right; split; reflexivity ].
      * do 2 eexists. split; [ reflexivity | right; split; reflexivity ].
    + unfold decode_abi_if_provided. rewrite Habi. cbn [negb]. unfold ret.
      do 2 eexists. split; [ reflexivity | right; split; reflexivity ].
  - unfold decode_abi_if_provided, ret.
    do 2 eexists. split; [ reflexivity | right; split; reflexivity ].
Qed.

End DecoderFacts.

(** ** Risk detection *)

Lemma draw_nil (w : world) : draw [] w = w.
Proof. destruct w. unfold draw. cbn. now rewrite app_nil_r. Qed.

Lemma draw_add_ui (ev : ui_event) (evs : list ui_event) (w : world) :
  draw evs (add_ui ev w) = draw (ev :: evs) w.
Proof. unfold draw, add_ui. cbn. now rewrite <- app_assoc. Qed.

Lemma warnings_loop (rs : list string) (i : nat) (w : world) :
  for_enumerate (fun _ risk => emit (UiWarning risk)) i rs w
  = (Ok tt, draw (map UiWarning rs) w).
Proof.
  revert i w. induction rs as [ | r rs IH]; intros i w.
  - cbn. unfold ret. now rewrite draw_nil.
  - cbn [for_enumerate map]. unfold bind, emit.
    rewrite IH. now rewrite draw_add_ui.
Qed.

Lemma render_risks_draws (rs : list string) (w : world) :
  render_risks rs w = (Ok tt, draw (risk_events rs) w).
Proof.
  destruct rs as [ | r rs].
  - cbn. unfold ret. now rewrite draw_nil.
  - unfold render_risks, risk_events, bind, emit.
    rewrite warnings_loop. now rewrite draw_add_ui.
Qed.

Lemma risk_detection_draws (result : pyval) (w : world) :
  risk_detection result w =
  match risks result with
  | Ok rs => (Ok tt, draw (risk_events rs) w)
  | Raise e => (Raise e, w)
  end.
Proof.
  unfold risk_detection, bind, lift.
  destruct (risks result) as [rs | e]; [ apply render_risks_draws | reflexivity ].
Qed.

Lemma warning_drawn_iff (risk : string) (rs : list string) :
  In (UiWarning risk) (risk_events rs) <-> In risk rs.
Proof.
  destruct rs as [ | r rs]; [ reflexivity | ].
  unfold risk_events. split.
  - intros [Hsub | Hin]; [ discriminate | ].
    apply in_map_iff in Hin. destruct Hin as [x [Hx Hin]].
    now injection Hx as ->.
  - intros Hin. right. now apply in_map.
Qed.

(** The list that the two tests build for a dict answer. *)
Lemma risks_of_dict (d : list (string * pyval)) :
  risks (PDict d) =
  obind (py_gt_const (match dict_find "gas_used" d with
                      | Some g => g
                      | None => PInt 0
                      end) 500000)
        (fun high => Ok ((if high then [HIGH_GAS] else [])
                         ++ (if dict_has "approvals" d then [NEW_APPROVALS] else []))).
Proof.
  unfold risks. cbn [py_get obind py_in].
  destruct (py_gt_const _ 500000) as [high | e]; [ | reflexivity ].
  cbn [obind]. destruct (dict_has "approvals" d); [ reflexivity | ].
  now rewrite app_nil_r.
Qed.

Lemma high_gas_in_risks (high approvals : bool) :
  In HIGH_GAS ((if high then [HIGH_GAS] else [])
               ++ (if approvals then [NEW_APPROVALS] else []))
  <-> high = true.
Proof.
  destruct high, approvals; cbn; split; intros H;
    try reflexivity; try discriminate; auto;
    repeat (destruct H as [H | H]; try discriminate H); try contradiction.
Qed.

Lemma approvals_in_risks (high approvals : bool) :
  In NEW_APPROVALS ((if high then [HIGH_GAS] else [])
                    ++ (if approvals then [NEW_APPROVALS] else []))
  <-> approvals = true.
Proof.
  destruct high, approvals; cbn; split; intros H;
    try reflexivity; try discriminate; auto;
    repeat (destruct H as [H | H]; try discriminate H); try contradiction.
Qed.

(** C3.  For an answer whose [gas_used] is the integer [g], the risk list
    holds the high-gas warning exactly when [g > 500000], and the risk
    section draws that warning exactly then. *)
Theorem high_gas_warning_iff_above_threshold
    (d : list (string * pyval)) (g : Z) (w : world) :
  dict_find "gas_used" d = Some (PInt g) ->
  exists rs,
    risks (PDict d) = Ok rs /\
    (In HIGH_GAS rs <-> (500000 < g)%Z) /\
    risk_detection (PDict d) w = (Ok tt, draw (risk_events rs) w) /\
    (In (UiWarning HIGH_GAS) (risk_events rs) <-> (500000 < g)%Z).
Proof.
  intros Hgas.
  pose proof (risks_of_dict d) as Hrisks.
  rewrite Hgas in Hrisks. cbn [py_gt_const obind] in Hrisks.
  eexists. split; [ exact Hrisks | ].
  assert (Hiff : forall a : bool, In HIGH_GAS
                   ((if (500000 <? g)%Z then [HIGH_GAS] else [])
                    ++ (if a then [NEW_APPROVALS] else []))
                 <-> (500000 < g)%Z).
  { intros a. rewrite high_gas_in_risks. apply Z.ltb_lt. }
  split; [ apply Hiff | ].
  split.
  - rewrite risk_detection_draws, Hrisks. reflexivity.
  - rewrite warning_drawn_iff. apply Hiff.
Qed.

(** C4.  For an answer whose [gas_used] is missing or a number, the risk
    list holds the approvals warning exactly when the answer has an
    [approvals] key, whatever value is stored under it, and the risk section
    draws that warning exactly then. *)
Theorem approvals_warning_iff_key_present
    (d : list (string * pyval)) (w : world) :
  gas_used_numeric d = true ->
  exists rs,
    risks (PDict d) = Ok rs /\
    (In NEW_APPROVALS rs <-> dict_has "approvals" d = true) /\
    (forall v, dict_find "approvals" d = Some v -> In NEW_APPROVALS rs) /\
    risk_detection (PDict d) w = (Ok tt, draw (risk_events rs) w) /\
    (In (UiWarning NEW_APPROVALS) (risk_events rs) <-> dict_has "approvals" d = true).
Proof.
  intros Hnum.
  assert (Hgt : exists high,
             py_gt_const (match dict_find "gas_used" d with
                          | Some g => g
                          | None => PInt 0
                          end) 500000 = Ok high).
  { unfold gas_used_numeric in Hnum.
    destruct (dict_find "gas_used" d) as [[ | b | z | f | s | s | l | l | d'] | ];
      try discriminate Hnum; cbn [py_gt_const]; eauto. }
  destruct Hgt as [high Hgt].
  pose proof (risks_of_dict d) as Hrisks.
  rewrite Hgt in Hrisks. cbn [obind] in Hrisks.
  eexists. split; [ exact Hrisks | ].
  split; [ apply approvals_in_risks | ].
  split.
  - intros v Hv. apply approvals_in_risks. unfold dict_has. now rewrite Hv.
  - split.
    + rewrite risk_detection_draws, Hrisks. reflexivity.
    + rewrite warning_drawn_iff. apply approvals_in_risks.
Qed.

(** C10.  For an answer without a [gas_used] key the gas figure read by the
    risk test is the default 0, the risk list never holds the high-gas
    warning, and the risk section never draws it. *)
Theorem missing_gas_used_never_warns (d : list (string * pyval)) (w : world) :
  dict_find "gas_used" d = None ->
  py_get (PDict d) "gas_used" (PInt 0) = Ok (PInt 0) /\
  exists rs,
    risks (PDict d) = Ok rs /\
    ~ In HIGH_GAS rs /\
    risk_detection (PDict d) w = (Ok tt, draw (risk_events rs) w) /\
    ~ In (UiWarning HIGH_GAS) (risk_events rs).
Proof.
  intros Hgas. split.
  - cbn [py_get]. now rewrite Hgas.
  - pose proof (risks_of_dict d) as Hrisks.
    rewrite Hgas in Hrisks. cbn [py_gt_const obind] in Hrisks.
    change (Z.pos 500000 <? 0)%Z with false in Hrisks.
    eexists. split; [ exact Hrisks | ].
    assert (Hnot : ~ In HIGH_GAS ([] ++ (if dict_has "approvals" d
                                         then [NEW_APPROVALS] else []))).
    { intros Hin. apply (high_gas_in_risks false) in Hin. discriminate Hin. }
    split; [ exact Hnot | ].
    split.
    + rewrite risk_detection_draws, Hrisks. reflexivity.
    + rewrite warning_drawn_iff. exact Hnot.
Qed.

(** ** The simulation client and its cache *)

Lemma sim_key_eqb_eq (a b : sim_key) : sim_key_eqb a b = true <-> a = b.
Proof.
  destruct a as [[k1 d1] c1], b as [[k2 d2] c2]. unfold sim_key_eqb.
  rewrite !andb_true_iff, !String.eqb_eq, Z.eqb_eq.
  split.
  - intros [[-> ->] ->]. reflexivity.
  - intros H. injection H as -> -> ->. auto.
Qed.

Lemma sim_key_eqb_refl (k : sim_key) : sim_key_eqb k k = true.
Proof. now apply sim_key_eqb_eq. Qed.

Lemma sim_key_eqb_neq (a b : sim_key) : a <> b -> sim_key_eqb a b = false.
Proof.
  intros Hneq. destruct (sim_key_eqb a b) eqn:Heq; [ | reflexivity ].
  apply sim_key_eqb_eq in Heq. contradiction.
Qed.

Section ClientFacts.
Context (L : libs).

(** One call of [simulate_tx], spelled out: a fresh entry is returned as it
    is; otherwise one request is sent, and the answer is stored only when its
    body parses. *)
Lemma simulate_at_cases (now : Z) (k : sim_key) (w : world) :
  simulate_at L now k w =
  match cache_lookup sim_key_eqb (Some 300%Z) now k (sim_cache w) with
  | Some v => (Ok v, add_call (CallSimulate k) w)
  | None =>
      let w1 := add_net (simulate_request k) (add_call (CallSimulate k) w) in
      match http L (List.length (net w)) (simulate_request k) with
      | Raise e => (Raise e, w1)
      | Ok resp =>
          match json_body resp with
          | Raise e => (Raise e, w1)
          | Ok v => (Ok v, set_sim_cache (cache_store now k v (sim_cache w)) w1)
          end
      end
  end.
Proof.
  destruct k as [[api tx] c].
  unfold simulate_at, simulate_tx, bind, log_call, cache_data.
  cbn [sim_cache add_call].
  destruct (cache_lookup sim_key_eqb (Some 300%Z) now (api, tx, c) (sim_cache w));
    [ reflexivity | ].
  unfold simulate_tx_body, bind, send, lift, simulate_request.
  cbn [net add_call].
  destruct (http L _ _) as [resp | e]; [ | reflexivity ].
  destruct (json_body resp) as [v | e]; reflexivity.
Qed.

(** A call under one key leaves the entries of every other key alone. *)
Lemma simulate_at_other_key (now : Z) (k k' : sim_key) (w : world) :
  k <> k' ->
  cache_find sim_key_eqb k (sim_cache (snd (simulate_at L now k' w)))
  = cache_find sim_key_eqb k (sim_cache w).
Proof.
  intros Hneq. rewrite simulate_at_cases.
  destruct (cache_lookup _ _ _ _ _); [ reflexivity | ].
  cbv zeta. destruct (http L _ _) as [resp | e]; [ | reflexivity ].
  destruct (json_body resp) as [v | e]; [ | reflexivity ].
  cbn. now rewrite (sim_key_eqb_neq _ _ Hneq).
Qed.

(** While its entry is fresh, a call returns the stored value, sends
    nothing and keeps the entry. *)
Lemma simulate_at_fresh (now stored : Z) (k : sim_key) (r : pyval) (w : world) :
  cache_find sim_key_eqb k (sim_cache w) = Some (stored, r) ->
  (now < stored + 300)%Z ->
  simulate_at L now k w = (Ok r, add_call (CallSimulate k) w).
Proof.
  intros Hfind Hfresh. rewrite simulate_at_cases.
  unfold cache_lookup, cache_fresh. rewrite Hfind.
  apply Z.ltb_lt in Hfresh. now rewrite Hfresh.
Qed.

(** Once its entry is stale, a call sends the request again. *)
Lemma simulate_at_stale (now stored : Z) (k : sim_key) (r : pyval) (w : world) :
  cache_find sim_key_eqb k (sim_cache w) = Some (stored, r) ->
  (stored + 300 <= now)%Z ->
  net (snd (simulate_at L now k w)) = net w ++ [simulate_request k].
Proof.
  intros Hfind Hstale. rewrite simulate_at_cases.
  unfold cache_lookup, cache_fresh. rewrite Hfind.
  apply Z.ltb_ge in Hstale. rewrite Hstale. cbv zeta.
  destruct (http L _ _) as [resp | e]; [ | reflexivity ].
  destruct (json_body resp) as [v | e]; reflexivity.
Qed.

(** A call that returned a value after sending a request has stored that
    value under its key, stamped with the time of the call. *)
Lemma simulate_at_stores (now : Z) (k : sim_key) (r : pyval) (w w0 : world) :
  simulate_at L now k w = (Ok r, w0) ->
  List.length (net w0) = S (List.length (net w)) ->
  cache_find sim_key_eqb k (sim_cache w0) = Some (now, r).
Proof.
  rewrite simulate_at_cases.
  destruct (cache_lookup _ _ _ _ _).
  - intros Heq Hlen. injection Heq as _ <-. cbn in Hlen. lia.
  - cbv zeta. destruct (http L _ _) as [resp | e]; [ | discriminate ].
    destruct (json_body resp) as [v | e]; [ | discriminate ].
    intros Heq _. injection Heq as <- <-. cbn.
    now rewrite sim_key_eqb_refl.
Qed.

(** A raising call stores nothing: the next call misses again. *)
Lemma simulate_at_raise_not_stored (now : Z) (k : sim_key) (e : exn) (w w0 : world) :
  simulate_at L now k w = (Raise e, w0) ->
  sim_cache w0 = sim_cache w /\ net w0 = net w ++ [simulate_request k].
Proof.
  rewrite simulate_at_cases.
  destruct (cache_lookup _ _ _ _ _); [ discriminate | ].
  cbv zeta. destruct (http L _ _) as [resp | e'].
  - destruct (json_body resp) as [v | e']; [ discriminate | ].
    intros Heq. injection Heq as _ <-. split; reflexivity.
  - intros Heq. injection Heq as _ <-. split; reflexivity.
Qed.

(** C7.  Let a call of [simulate_tx] at time [t0] send the request and
    return [r].  In any sequence of later calls, every call with the same
    (api key, call data, chain id) made less than 300 seconds after [t0]
    returns [r] and sends no request, so the endpoint is invoked once for
    the window; a call with the same arguments made 300 seconds or more
    after [t0] sends the request again. *)
Theorem simulate_once_per_window
    (t0 : Z) (k : sim_key) (r : pyval) (w w0 : world) (cs : list (Z * sim_key)) :
  simulate_at L t0 k w = (Ok r, w0) ->
  List.length (net w0) = S (List.length (net w)) ->
  (forall t, In (t, k) cs -> (t0 <= t < t0 + 300)%Z) ->
  (forall i t, nth_error cs i = Some (t, k) ->
     nth_error (fst (run_simulations L cs w0)) i = Some (Ok r, 0)) /\
  (forall t', (t0 + 300 <= t')%Z ->
     net (snd (simulate_at L t' k (snd (run_simulations L cs w0))))
     = net (snd (run_simulations L cs w0)) ++ [simulate_request k]).
Proof.
  intros Hcall Hsent Hwindow.
  pose proof (simulate_at_stores _ _ _ _ _ Hcall Hsent) as Hentry.
  clear Hcall Hsent. revert w0 Hentry Hwindow.
  induction cs as [ | [t k'] cs IH]; intros w0 Hentry Hwindow.
  - split.
    + intros [ | i] t Hnth; discriminate Hnth.
    + intros t' Ht'. cbn [run_simulations snd].
      now apply (simulate_at_stale _ t0 _ r).
  - assert (Hkeep : cache_find sim_key_eqb k
                      (sim_cache (snd (simulate_at L t k' w0))) = Some (t0, r)).
    { destruct (sim_key_eqb k k') eqn:Hk.
      - apply sim_key_eqb_eq in Hk. subst k'.
        rewrite (simulate_at_fresh t t0 k r w0 Hentry); [ exact Hentry | ].
        apply Hwindow. now left.
      - rewrite simulate_at_other_key; [ exact Hentry | ].
        intros ->. now rewrite sim_key_eqb_refl in Hk. }
    assert (Hrest : forall t1, In (t1, k) cs -> (t0 <= t1 < t0 + 300)%Z).
    { intros t1 Hin. apply Hwindow. now right. }
    destruct (IH _ Hkeep Hrest) as [IHhit IHafter].
    split.
    + intros [ | i] t1 Hnth.
      * cbn in Hnth. injection Hnth as -> ->.
        cbn [run_simulations fst nth_error].
        rewrite (simulate_at_fresh t1 t0 k r w0 Hentry).
        -- cbn. now rewrite Nat.sub_diag.
        -- apply Hwindow. now left.
      * cbn [run_simulations fst nth_error]. apply (IHhit i t1). exact Hnth.
    + intros t' Ht'. cbn [run_simulations snd]. now apply IHafter.
Qed.

End ClientFacts.

(** ** Computations that only draw *)

Lemma same_outside_ui_refl (w : world) : same_outside_ui w w.
Proof. unfold same_outside_ui. auto. Qed.

Lemma same_outside_ui_trans (w1 w2 w3 : world) :
  same_outside_ui w1 w2 -> same_outside_ui w2 w3 -> same_outside_ui w1 w3.
Proof.
  unfold same_outside_ui.
  intros (Hn & Hc & Hs & Hi) (Hn' & Hc' & Hs' & Hi').
  repeat split; congruence.
Qed.

Lemma ui_only_ret {A} (a : A) : ui_only (ret a).
Proof. intros w. apply same_outside_ui_refl. Qed.

Lemma ui_only_lift {A} (o : outcome A) : ui_only (lift o).
Proof. intros w. apply same_outside_ui_refl. Qed.

Lemma ui_only_emit (ev : ui_event) : ui_only (emit ev).
Proof. intros w. unfold same_outside_ui. cbn. auto. Qed.

Lemma ui_only_bind {A B} (m : M A) (k : A -> M B) :
  ui_only m -> (forall a, ui_only (k a)) -> ui_only (bind m k).
Proof.
  intros Hm Hk w. unfold bind. specialize (Hm w).
  destruct (m w) as [[a | e] w1]; cbn [snd] in *.
  - eapply same_outside_ui_trans; [ exact Hm | apply Hk ].
  - exact Hm.
Qed.

Lemma ui_only_try {A} (body : M A) (handler : exn -> M A) :
  ui_only body -> (forall e, ui_only (handler e)) -> ui_only (try_except body handler).
Proof.
  intros Hb Hh w. unfold try_except. specialize (Hb w).
  destruct (body w) as [[a | e] w1]; cbn [snd] in *.
  - exact Hb.
  - eapply same_outside_ui_trans; [ exact Hb | apply Hh ].
Qed.

Lemma ui_only_for {A} (body : nat -> A -> M unit) (l : list A) :
  (forall i x, ui_only (body i x)) -> forall i, ui_only (for_enumerate body i l).
Proof.
  intros Hbody. induction l as [ | x l IH]; intros i.
  - apply ui_only_ret.
  - cbn [for_enumerate]. apply ui_only_bind; [ apply Hbody | intros _; apply IH ].
Qed.

Lemma ui_only_render_risks (rs : list string) : ui_only (render_risks rs).
Proof.
  destruct rs as [ | r rs]; [ apply ui_only_ret | ].
  unfold render_risks. apply ui_only_bind; [ apply ui_only_emit | intros _ ].
  apply ui_only_for. intros i x. apply ui_only_emit.
Qed.

Lemma ui_only_risk_detection (result : pyval) : ui_only (risk_detection result).
Proof.
  unfold risk_detection.
  apply ui_only_bind; [ apply ui_only_lift | apply ui_only_render_risks ].
Qed.

Section HandlerFacts.
Context (L : libs).

Lemma ui_only_st_data (ev : ui_event) : ui_only (st_data L ev).
Proof.
  unfold st_data. destruct (st_rejects L ev); [ apply ui_only_lift | apply ui_only_emit ].
Qed.

Lemma ui_only_decode (raw : string) (abi : option string) :
  ui_only (decode_abi_if_provided L raw abi).
Proof.
  intros w. pose proof (decode_frame L raw abi w) as H. exact H.
Qed.

Lemma ui_only_abi_tab (inp : inputs) : ui_only (abi_tab L inp).
Proof.
  unfold abi_tab. destruct (str_truthy (abi_json inp)); [ | apply ui_only_ret ].
  apply ui_only_bind; [ apply ui_only_decode | intros decoded ].
  destruct (isinstance_dict decoded); [ apply ui_only_st_data | apply ui_only_ret ].
Qed.

Lemma ui_only_render_basic_info (result : pyval) : ui_only (render_basic_info L result).
Proof.
  unfold render_basic_info.
  repeat first [ apply ui_only_bind; [ | intros ? ]
               | apply ui_only_emit | apply ui_only_lift | apply ui_only_st_data ].
Qed.

Lemma ui_only_render_balance_changes (result : pyval) :
  ui_only (render_balance_changes L result).
Proof.
  unfold render_balance_changes.
  apply ui_only_bind; [ apply ui_only_lift | intros has ].
  destruct has; [ | apply ui_only_ret ].
  repeat first [ apply ui_only_bind; [ | intros ? ]
               | apply ui_only_emit | apply ui_only_lift | apply ui_only_st_data ].
Qed.

(** C6.  When the button fires on call data that does not start with [0x],
    the handler draws the validation error and does nothing else; in the
    whole run of the script no request is sent and neither [simulate_tx]
    nor [get_nft_image] is called. *)
Theorem missing_prefix_reported_without_request (now : Z) (inp : inputs) (w : world) :
  button_fires inp = true ->
  String.prefix "0x" (raw_tx inp) = false ->
  simulate_button L now inp w = (Ok tt, add_ui prefix_error w) /\
  net (snd (script L now inp w)) = net w /\
  calls (snd (script L now inp w)) = calls w.
Proof.
  intros Hfires Hprefix.
  assert (Hbutton : forall w0, simulate_button L now inp w0
                               = (Ok tt, add_ui prefix_error w0)).
  { intros w0. unfold simulate_button. rewrite Hfires, Hprefix. reflexivity. }
  split; [ apply Hbutton | ].
  assert (Hscript : ui_only (script L now inp)).
  { unfold script.
    apply ui_only_bind; [ apply ui_only_emit | intros _ ].
    apply ui_only_bind; [ apply ui_only_emit | intros _ ].
    apply ui_only_bind; [ apply ui_only_abi_tab | intros _ ].
    apply ui_only_bind.
    - intros w0. rewrite Hbutton. apply (ui_only_emit prefix_error w0).
    - intros _. apply ui_only_bind; [ apply ui_only_emit | intros _; apply ui_only_emit ]. }
  destruct (Hscript w) as (Hnet & Hcalls & _). auto.
Qed.

(** *** How the handler reports what the endpoint did *)

Lemma simulate_and_render_cases (now : Z) (inp : inputs) (c : Z) (w : world) :
  chain_id_of (chain inp) = Ok c ->
  simulate_and_render L now inp w =
  match simulate_at L now (sim_key_of inp c) w with
  | (Raise e, w1) => (Ok tt, add_ui (api_error e) w1)
  | (Ok result, w1) =>
      let w2 := add_ui (UiSubheader "📊 Results") w1 in
      match py_in "error" result with
      | Raise e => (Ok tt, add_ui (api_error e) w2)
      | Ok true =>
          match py_getitem result "error" with
          | Ok err => (Ok tt, add_ui (in_band_error L err) w2)
          | Raise e => (Ok tt, add_ui (api_error e) w2)
          end
      | Ok false =>
          match render_result L now (api_key inp) result w2 with
          | (Ok u, w3) => (Ok u, w3)
          | (Raise e, w3) => (Ok tt, add_ui (api_error e) w3)
          end
      end
  end.
Proof.
  intros Hchain.
  unfold simulate_and_render, try_except, bind at 1, lift at 1.
  rewrite Hchain. unfold bind at 1.
  change (simulate_tx L now (api_key inp) (raw_tx inp) c)
    with (simulate_at L now (sim_key_of inp c)).
  destruct (simulate_at L now (sim_key_of inp c) w) as [[result | e] w1];
    [ | reflexivity ].
  unfold bind at 1, emit at 1. unfold bind at 1, lift at 1.
  destruct (py_in "error" result) as [[ | ] | e]; [ | reflexivity | reflexivity ].
  unfold bind, lift, emit.
  destruct (py_getitem result "error") as [err | e]; reflexivity.
Qed.

(** X15.  How the handler reports what [simulate_tx] did, whether the
    cache served the call or a request went out:
    - an answer that is an object with an [error] key is data: the handler
      draws the value of [error] as the simulation's own error and raises
      nothing;
    - when [simulate_tx] raises, the handler catches the exception and draws
      it as an API error;
    - [simulate_tx] raises exactly when a request went out and either the
      transport raised (no connection, a timeout) or the body of the answer
      was not JSON;
    - the two drawings are never equal. *)
Theorem handler_reports_error_field_and_failures
    (now : Z) (inp : inputs) (c : Z) (w : world) :
  chain_id_of (chain inp) = Ok c ->
  (forall d err w1,
     simulate_at L now (sim_key_of inp c) w = (Ok (PDict d), w1) ->
     dict_find "error" d = Some err ->
     simulate_and_render L now inp w
     = (Ok tt, add_ui (in_band_error L err) (add_ui (UiSubheader "📊 Results") w1))) /\
  (forall e w1,
     simulate_at L now (sim_key_of inp c) w = (Raise e, w1) ->
     simulate_and_render L now inp w = (Ok tt, add_ui (api_error e) w1)) /\
  (forall e w1,
     simulate_at L now (sim_key_of inp c) w = (Raise e, w1) <->
     cache_lookup sim_key_eqb (Some 300%Z) now (sim_key_of inp c) (sim_cache w) = None /\
     w1 = after_request (sim_key_of inp c) w /\
     (http L (List.length (net w)) (simulate_request (sim_key_of inp c)) = Raise e \/
      exists resp,
        http L (List.length (net w)) (simulate_request (sim_key_of inp c)) = Ok resp /\
        json_body resp = Raise e)) /\
  (forall err e, in_band_error L err <> api_error e).
Proof.
  intros Hchain.
  pose proof (simulate_and_render_cases now inp c w Hchain) as Hrender.
  split; [ | split; [ | split ] ].
  - intros d err w1 Hsim Herr. rewrite Hrender, Hsim.
    cbn [py_in py_getitem]. unfold dict_has. rewrite Herr. reflexivity.
  - intros e w1 Hsim. rewrite Hrender, Hsim. reflexivity.
  - intros e w1. rewrite simulate_at_cases.
    destruct (cache_lookup _ _ _ _ _) as [v | ].
    { split; [ discriminate | intros (Hmiss & _); discriminate Hmiss ]. }
    cbv zeta. fold (after_request (sim_key_of inp c) w).
    destruct (http L _ _) as [resp | e'].
    + destruct (json_body resp) as [v | e'] eqn:Hbody.
      * split; [ discriminate | ].
        intros (_ & _ & [Hraise | (resp' & Hresp & Hbody')]);
          [ discriminate Hraise | ].
        apply Ok_inj in Hresp. subst resp'. congruence.
      * split.
        -- intros Heq. injection Heq as -> <-.
           split; [ reflexivity | split; [ reflexivity | right ] ]. eauto.
        -- intros (_ & -> & [Hraise | (resp' & Hresp & Hbody')]);
             [ discriminate Hraise | ].
           apply Ok_inj in Hresp. subst resp'. congruence.
    + split.
      * intros Heq. injection Heq as -> <-.
        split; [ reflexivity | split; [ reflexivity | now left ] ].
      * intros (_ & -> & [Hraise | (resp' & Hresp & _)]);
          [ | discriminate Hresp ].
        congruence.
  - intros err e Heq. unfold in_band_error, api_error in Heq.
    injection Heq as Hbyte _. discriminate Hbyte.
Qed.

(** *** The NFT previews *)

Lemma nft_calls_app (cs1 cs2 : list call) :
  nft_calls (cs1 ++ cs2) = nft_calls cs1 ++ nft_calls cs2.
Proof. unfold nft_calls. apply flat_map_app. Qed.

Lemma nft_calls_map (ks : list img_key) : nft_calls (map CallNftImage ks) = ks.
Proof.
  induction ks as [ | k ks IH]; [ reflexivity | ].
  cbn. unfold nft_calls in IH. now rewrite IH.
Qed.

(** A call of [get_nft_image] is logged once, whether the cache serves it,
    the request succeeds, or something raises. *)
Lemma get_nft_image_calls (now : Z) (api : string) (a tid : pyval) (w : world) :
  calls (snd (get_nft_image L now api a tid w))
  = calls w ++ [CallNftImage (api, a, tid)].
Proof.
  unfold get_nft_image, bind, log_call, cache_data.
  destruct (cache_lookup _ _ _ _ _); [ reflexivity | ].
  unfold get_nft_image_body, bind, send, lift, ret.
  destruct (http L _ _) as [resp | e]; [ | reflexivity ].
  destruct (Z.eqb (status_code resp) 200); [ | reflexivity ].
  destruct (image_open L (content resp)); reflexivity.
Qed.

(** One turn of the preview loop: when both fields of the entry can be read
    the image is asked for once; otherwise the turn raises before asking. *)
Lemma render_nft_transfer_calls (now : Z) (api : string) (i : nat) (t : pyval) (w : world) :
  match py_getitem t "contract_address", py_getitem t "token_id" with
  | Ok a, Ok tid =>
      calls (snd (render_nft_transfer L now api i t w))
      = calls w ++ [CallNftImage (api, a, tid)]
  | _, _ =>
      calls (snd (render_nft_transfer L now api i t w)) = calls w /\
      exists e, fst (render_nft_transfer L now api i t w) = Raise e
  end.
Proof.
  unfold render_nft_transfer. unfold bind at 1, lift at 1.
  destruct (py_getitem t "contract_address") as [a | e].
  2:{ destruct (py_getitem t "token_id"); cbn; eauto. }
  unfold bind at 1, lift at 1.
  destruct (py_getitem t "token_id") as [tid | e]; [ | cbn; eauto ].
  unfold bind at 1.
  pose proof (get_nft_image_calls now api a tid w) as Hcalls.
  destruct (get_nft_image L now api a tid w) as [[img | e] w1];
    cbn [snd] in Hcalls; [ | exact Hcalls ].
  rewrite <- Hcalls.
  assert (Hrest : forall (m : M unit), ui_only m ->
            calls (snd (bind m (fun _ =>
                     bind (lift (Ok tid)) (fun token_id' =>
                       emit (UiCol i (UiCaption ("Token #" ++ py_str L token_id'))))) w1))
            = calls w1).
  { intros m Hm.
    assert (Hall : ui_only (bind m (fun _ =>
                     bind (lift (Ok tid)) (fun token_id' =>
                       emit (UiCol i (UiCaption ("Token #" ++ py_str L token_id'))))))).
    { apply ui_only_bind; [ exact Hm | intros _ ].
      apply ui_only_bind; [ apply ui_only_lift | intros ?; apply ui_only_emit ]. }
    destruct (Hall w1) as (_ & Hc & _). exact Hc. }
  destruct img as [im | ]; apply Hrest; [ apply ui_only_st_data | apply ui_only_ret ].
Qed.

(** The preview loop asks for one image per entry, in order, and stops at
    the first turn that raises. *)
Lemma preview_loop_calls (now : Z) (api : string) (shown : list pyval) :
  forall (i : nat) (w : world),
  exists fetched,
    calls (snd (for_enumerate (render_nft_transfer L now api) i shown w))
    = calls w ++ map CallNftImage fetched /\
    List.length fetched <= List.length shown /\
    fetched_in_order api shown fetched.
Proof.
  induction shown as [ | t shown IH]; intros i w.
  - exists []. cbn. rewrite app_nil_r. repeat split; auto.
    intros [ | j] key Hnth; discriminate Hnth.
  - cbn [for_enumerate]. unfold bind.
    pose proof (render_nft_transfer_calls now api i t w) as Hturn.
    destruct (py_getitem t "contract_address") as [a | ea] eqn:Ha;
      [ destruct (py_getitem t "token_id") as [tid | et] eqn:Htid | ].
    + destruct (render_nft_transfer L now api i t w) as [[u | e] w1];
        cbn [snd] in Hturn.
      * destruct (IH (S i) w1) as (fetched & Hcalls & Hlen & Horder).
        exists ((api, a, tid) :: fetched). split; [ | split ].
        -- rewrite Hcalls, Hturn. cbn [map]. now rewrite <- app_assoc.
        -- cbn [List.length]. lia.
        -- intros [ | j] key Hnth.
           ++ injection Hnth as <-. exists t, a, tid. auto.
           ++ apply (Horder j key Hnth).
      * exists [(api, a, tid)]. split; [ exact Hturn | split ].
        -- cbn [List.length]. lia.
        -- intros [ | [ | j]] key Hnth; try discriminate Hnth.
           injection Hnth as <-. exists t, a, tid. auto.
    + destruct Hturn as [Hcalls [e He]].
      destruct (render_nft_transfer L now api i t w) as [[u | e'] w1];
        cbn [fst snd] in *; [ discriminate He | ].
      exists []. cbn [map List.length]. rewrite app_nil_r.
      split; [ exact Hcalls | split; [ lia | ] ].
      intros [ | j] key Hnth; discriminate Hnth.
    + destruct Hturn as [Hcalls [e He]].
      destruct (render_nft_transfer L now api i t w) as [[u | e'] w1];
        cbn [fst snd] in *; [ discriminate He | ].
      exists []. cbn [map List.length]. rewrite app_nil_r.
      split; [ exact Hcalls | split; [ lia | ] ].
      intros [ | j] key Hnth; discriminate Hnth.
Qed.

Lemma nth_error_firstn_some {A} (n i : nat) (l : list A) (x : A) :
  nth_error (firstn n l) i = Some x -> i < n /\ nth_error l i = Some x.
Proof.
  revert i l. induction n as [ | n IH]; intros i l Hnth.
  - destruct i; discriminate Hnth.
  - destruct l as [ | y l]; [ destruct i; discriminate Hnth | ].
    destruct i as [ | i]; cbn in *.
    + split; [ lia | exact Hnth ].
    + destruct (IH _ _ Hnth) as [Hlt Hl]. split; [ lia | exact Hl ].
Qed.

(** What the NFT section adds to the call log. *)
Lemma render_nft_transfers_calls (now : Z) (api : string) (result : pyval) (w : world) :
  exists fetched,
    calls (snd (render_nft_transfers L now api result w))
    = calls w ++ map CallNftImage fetched /\
    List.length fetched <= 3 /\
    fetched_in_order api (firstn 3 (transfer_entries result)) fetched.
Proof.
  assert (Hnone : calls w = calls w ++ map CallNftImage [] /\
                  List.length (@nil img_key) <= 3 /\
                  fetched_in_order api (firstn 3 (transfer_entries result)) []).
  { cbn. rewrite app_nil_r. repeat split; auto.
    intros [ | j] key Hnth; discriminate Hnth. }
  unfold render_nft_transfers. unfold bind at 1, lift at 1.
  destruct (py_get result "nft_transfers" (PList [])) as [nft | e] eqn:Hget;
    [ | exists []; exact Hnone ].
  destruct (py_truthy nft) eqn:Htruthy; [ | exists []; exact Hnone ].
  unfold bind at 1, emit at 1. unfold bind at 1, emit at 1.
  unfold bind at 1, lift at 1.
  destruct (py_slice_to 3 nft) as [shown | e] eqn:Hslice;
    [ | exists []; exact Hnone ].
  destruct (preview_loop_calls now api shown 0
              (add_ui (UiColumns 3) (add_ui (UiSubheader "🖼️ NFT Transfers") w)))
    as (fetched & Hcalls & Hlen & Horder).
  cbn [calls add_ui] in Hcalls.
  assert (Hshown : List.length shown <= 3).
  { destruct nft; cbn [py_slice_to] in Hslice; try discriminate Hslice;
      apply Ok_inj in Hslice; subst shown;
      rewrite ?length_map; apply firstn_le_length. }
  exists fetched. split; [ exact Hcalls | split; [ lia | ] ].
  intros i key Hnth.
  destruct (Horder i key Hnth) as (t & a & tid & Ht & Ha & Htid & Hkey).
  exists t, a, tid. repeat split; auto.
  unfold transfer_entries. rewrite Hget.
  destruct nft; cbn [py_slice_to] in Hslice; try discriminate Hslice;
    apply Ok_inj in Hslice; subst shown.
  - rewrite nth_error_map in Ht. exfalso.
    destruct (nth_error (firstn 3 (list_ascii_of_string s)) i); cbn in Ht;
      [ injection Ht as <-; discriminate Ha | discriminate Ht ].
  - rewrite nth_error_map in Ht. exfalso.
    destruct (nth_error (firstn 3 (list_ascii_of_string s)) i); cbn in Ht;
      [ injection Ht as <-; discriminate Ha | discriminate Ht ].
  - exact Ht.
  - exact Ht.
Qed.

Lemma previews_ui_only {A} (api : string) (entries : list pyval) (m : M A) :
  ui_only m -> previews api entries m.
Proof.
  intros Hm w. destruct (Hm w) as (_ & Hcalls & _).
  exists []. cbn. rewrite app_nil_r. repeat split; auto.
  intros [ | j] key Hnth; discriminate Hnth.
Qed.

Lemma previews_after_ui {A B} (api : string) (entries : list pyval)
    (m : M A) (k : A -> M B) :
  ui_only m -> (forall a, previews api entries (k a)) -> previews api entries (bind m k).
Proof.
  intros Hm Hk w. unfold bind.
  destruct (Hm w) as (_ & Hcalls & _).
  destruct (m w) as [[a | e] w1]; cbn [snd] in *.
  - rewrite <- Hcalls. apply Hk.
  - rewrite <- Hcalls. apply (previews_ui_only api entries (ret tt) (ui_only_ret tt) w1).
Qed.

Lemma previews_before_ui {A B} (api : string) (entries : list pyval)
    (m : M A) (k : A -> M B) :
  previews api entries m -> (forall a, ui_only (k a)) -> previews api entries (bind m k).
Proof.
  intros Hm Hk w. unfold bind.
  destruct (Hm w) as (fetched & Hcalls & Hrest).
  destruct (m w) as [[a | e] w1]; cbn [snd] in *.
  - exists fetched. destruct (Hk a w1) as (_ & Hc & _).
    rewrite Hc. auto.
  - exists fetched. auto.
Qed.

Lemma previews_render_result (now : Z) (api : string) (result : pyval) :
  previews api (firstn 3 (transfer_entries result)) (render_result L now api result).
Proof.
  unfold render_result.
  apply previews_after_ui; [ apply ui_only_render_basic_info | intros _ ].
  apply previews_after_ui; [ apply ui_only_render_balance_changes | intros _ ].
  apply previews_before_ui; [ | intros _; apply ui_only_risk_detection ].
  intros w. apply render_nft_transfers_calls.
Qed.

Lemma fetches_bind {A B} (a b : nat) (m : M A) (k : A -> M B) :
  fetches a m -> (forall x, fetches b (k x)) -> fetches (a + b) (bind m k).
Proof.
  intros Hm Hk w. unfold bind.
  destruct (Hm w) as (f1 & Hcalls1 & Hlen1).
  destruct (m w) as [[x | e] w1]; cbn [snd] in *.
  - destruct (Hk x w1) as (f2 & Hcalls2 & Hlen2).
    exists (f1 ++ f2). split.
    + rewrite Hcalls2, Hcalls1. now rewrite app_assoc.
    + rewrite length_app. lia.
  - exists f1. split; [ exact Hcalls1 | lia ].
Qed.

Lemma fetches_try {A} (a b : nat) (body : M A) (handler : exn -> M A) :
  fetches a body -> (forall e, fetches b (handler e)) ->
  fetches (a + b) (try_except body handler).
Proof.
  intros Hb Hh w. unfold try_except.
  destruct (Hb w) as (f1 & Hcalls1 & Hlen1).
  destruct (body w) as [[x | e] w1]; cbn [snd] in *.
  - exists f1. split; [ exact Hcalls1 | lia ].
  - destruct (Hh e w1) as (f2 & Hcalls2 & Hlen2).
    exists (f1 ++ f2). split.
    + rewrite Hcalls2, Hcalls1. now rewrite app_assoc.
    + rewrite length_app. lia.
Qed.

Lemma fetches_ui_only {A} (m : M A) : ui_only m -> fetches 0 m.
Proof.
  intros Hm w. destruct (Hm w) as (_ & Hcalls & _).
  exists []. rewrite Hcalls, app_nil_r. split; [ reflexivity | cbn; lia ].
Qed.

Lemma fetches_simulate_tx (now : Z) (api tx : string) (c : Z) :
  fetches 0 (simulate_tx L now api tx c).
Proof.
  intros w. exists []. rewrite app_nil_r. split; [ | cbn; lia ].
  change (simulate_tx L now api tx c w) with (simulate_at L now (api, tx, c) w).
  assert (Hcalls : calls (snd (simulate_at L now (api, tx, c) w))
                   = calls w ++ [CallSimulate (api, tx, c)]).
  { rewrite simulate_at_cases.
    destruct (cache_lookup _ _ _ _ _); [ reflexivity | ].
    cbv zeta. destruct (http L _ _) as [resp | e]; [ | reflexivity ].
    destruct (json_body resp); reflexivity. }
  rewrite Hcalls, nft_calls_app. cbn. now rewrite app_nil_r.
Qed.

Lemma fetches_render_result (now : Z) (api : string) (result : pyval) :
  fetches 3 (render_result L now api result).
Proof.
  intros w.
  destruct (previews_render_result now api result w) as (fetched & Hcalls & Hlen & _).
  exists fetched. split; [ | exact Hlen ].
  rewrite Hcalls, nft_calls_app. now rewrite nft_calls_map.
Qed.

Lemma fetches_mono {A} (a b : nat) (m : M A) : a <= b -> fetches a m -> fetches b m.
Proof.
  intros Hle Hm w. destruct (Hm w) as (fetched & Hcalls & Hlen).
  exists fetched. split; [ exact Hcalls | lia ].
Qed.

Lemma fetches_simulate_button (now : Z) (inp : inputs) :
  fetches 3 (simulate_button L now inp).
Proof.
  assert (Hquiet : forall A (m : M A), ui_only m -> fetches 3 m).
  { intros A m Hm. apply (fetches_mono 0); [ lia | now apply fetches_ui_only ]. }
  unfold simulate_button.
  destruct (button_fires inp); [ | apply Hquiet, ui_only_ret ].
  destruct (negb (String.prefix "0x" (raw_tx inp))); [ apply Hquiet, ui_only_emit | ].
  unfold simulate_and_render.
  apply (fetches_try 3 0); [ | intros e; apply fetches_ui_only, ui_only_emit ].
  apply (fetches_bind 0 3); [ apply fetches_ui_only, ui_only_lift | intros c ].
  apply (fetches_bind 0 3); [ apply fetches_simulate_tx | intros result ].
  apply (fetches_bind 0 3); [ apply fetches_ui_only, ui_only_emit | intros _ ].
  apply (fetches_bind 0 3); [ apply fetches_ui_only, ui_only_lift | intros has ].
  destruct has; [ | apply fetches_render_result ].
  apply Hquiet.
  apply ui_only_bind; [ apply ui_only_lift | intros err; apply ui_only_emit ].
Qed.

(** C8.  Whatever the answer holds, rendering it calls [get_nft_image] at
    most three times, and the call at position [i] is made for the entry at
    position [i] of the answer's [nft_transfers] list, with [i < 3]: an
    entry at position three or later is never passed to the fetcher.  A
    whole run of the script therefore adds at most three calls of the
    fetcher to the call log. *)
Theorem only_first_three_transfers_are_fetched
    (now : Z) (inp : inputs) (result : pyval) (w : world) :
  (exists fetched,
     calls (snd (render_result L now (api_key inp) result w))
     = calls w ++ map CallNftImage fetched /\
     List.length fetched <= 3 /\
     forall i key, nth_error fetched i = Some key ->
       i < 3 /\
       exists t a tid,
         nth_error (transfer_entries result) i = Some t /\
         py_getitem t "contract_address" = Ok a /\
         py_getitem t "token_id" = Ok tid /\
         key = (api_key inp, a, tid)) /\
  (exists fetched,
     nft_calls (calls (snd (script L now inp w))) = nft_calls (calls w) ++ fetched /\
     List.length fetched <= 3).
Proof.
  split.
  - destruct (previews_render_result now (api_key inp) result w)
      as (fetched & Hcalls & Hlen & Horder).
    exists fetched. split; [ exact Hcalls | split; [ exact Hlen | ] ].
    intros i key Hnth.
    destruct (Horder i key Hnth) as (t & a & tid & Ht & Ha & Htid & Hkey).
    apply nth_error_firstn_some in Ht. destruct Ht as [Hlt Ht].
    split; [ exact Hlt | ]. exists t, a, tid. auto.
  - assert (Hscript : fetches 3 (script L now inp)).
    { unfold script.
      apply (fetches_bind 0 3); [ apply fetches_ui_only, ui_only_emit | intros _ ].
      apply (fetches_bind 0 3); [ apply fetches_ui_only, ui_only_emit | intros _ ].
      apply (fetches_bind 0 3); [ apply fetches_ui_only, ui_only_abi_tab | intros _ ].
      apply (fetches_bind 3 0); [ apply fetches_simulate_button | intros _ ].
      apply fetches_ui_only.
      apply ui_only_bind; [ apply ui_only_emit | intros _; apply ui_only_emit ]. }
    apply Hscript.
Qed.

End HandlerFacts.

(** ** The theorems at work on the sample libraries *)

(** Two bytes of call data with an ABI: a warning, and the call data back. *)
Lemma decode_short_calldata_passes_through :
  str_truthy "[]" = true /\
  calldata_nbytes "0xa905" < 4 /\
  (exists v w',
     decode_abi_if_provided sample_libs "0xa905" (Some "[]") empty_world = (Ok v, w')) /\
  (exists e,
     decode_abi_if_provided (with_spec_decoder sample_codec sample_libs)
       "0xa905" (Some "[]") empty_world
     = (Ok (PStr "0xa905"), add_ui (decode_warning e) empty_world)).
Proof.
  destruct (decode_never_raises sample_libs "0xa905" "[]" empty_world eq_refl)
    as (Hreturns & _ & _ & Hshort).
  split; [ reflexivity | ].
  split; [ cbn; lia | ].
  split; [ exact Hreturns | ].
  apply (Hshort sample_codec). cbn. lia.
Defined.

Example spec_decoder_decodes_transfer :
  spec_decode_function_input sample_codec transfer_abi "0xa9059cbb2a07"
  = Ok ("transfer", [("to", PInt 42); ("value", PInt 42)]).
Proof. reflexivity. Qed.

Example spec_decoder_rejects_unknown_selector :
  spec_decode_function_input sample_codec transfer_abi "0x095ea7b32a07"
  = Raise (ValueError "Could not find any function with matching selector").
Proof. reflexivity. Qed.

Example spec_decoder_rejects_three_bytes :
  spec_decode_function_input sample_codec transfer_abi "0xa9059c"
  = Raise (ValueError "the call data is shorter than a selector").
Proof. reflexivity. Qed.

Example decode_transfer :
  decode_abi_if_provided sample_libs "0xa9059cbb00" (Some "[]") empty_world
  = (Ok (decoded_dict "transfer" [("to", PStr "0x00"); ("value", PInt 1)]), empty_world).
Proof. reflexivity. Qed.

(** The boundary of the gas test. *)
Lemma high_gas_warning_at_500001 :
  dict_find "gas_used" [("success", PBool true); ("gas_used", PInt 500001)]
  = Some (PInt 500001) /\
  exists rs,
    risks (PDict [("success", PBool true); ("gas_used", PInt 500001)]) = Ok rs /\
    (In HIGH_GAS rs <-> (500000 < 500001)%Z) /\
    risk_detection (PDict [("success", PBool true); ("gas_used", PInt 500001)]) empty_world
    = (Ok tt, draw (risk_events rs) empty_world) /\
    (In (UiWarning HIGH_GAS) (risk_events rs) <-> (500000 < 500001)%Z).
Proof.
  split; [ reflexivity | ].
  apply (high_gas_warning_iff_above_threshold
           [("success", PBool true); ("gas_used", PInt 500001)] 500001 empty_world).
  reflexivity.
Defined.

Example risks_at_500001 : risks (PDict [("gas_used", PInt 500001)]) = Ok [HIGH_GAS].
Proof. reflexivity. Qed.

Example risks_at_500000 : risks (PDict [("gas_used", PInt 500000)]) = Ok [].
Proof. reflexivity. Qed.

Example risks_with_text_gas :
  risks (PDict [("gas_used", PStr "21000"); ("approvals", PDict [])])
  = Raise (TypeError "'>' not supported between instances of 'str' and 'int'").
Proof. reflexivity. Qed.

(** An empty [approvals] object is enough for the approvals warning. *)
Lemma approvals_warning_for_empty_object :
  gas_used_numeric [("gas_used", PInt 21000); ("approvals", PDict [])] = true /\
  exists rs,
    risks (PDict [("gas_used", PInt 21000); ("approvals", PDict [])]) = Ok rs /\
    (In NEW_APPROVALS rs
     <-> dict_has "approvals" [("gas_used", PInt 21000); ("approvals", PDict [])] = true) /\
    (forall v,
       dict_find "approvals" [("gas_used", PInt 21000); ("approvals", PDict [])] = Some v ->
       In NEW_APPROVALS rs) /\
    risk_detection (PDict [("gas_used", PInt 21000); ("approvals", PDict [])]) empty_world
    = (Ok tt, draw (risk_events rs) empty_world) /\
    (In (UiWarning NEW_APPROVALS) (risk_events rs)
     <-> dict_has "approvals" [("gas_used", PInt 21000); ("approvals", PDict [])] = true).
Proof.
  split; [ reflexivity | ].
  apply (approvals_warning_iff_key_present
           [("gas_used", PInt 21000); ("approvals", PDict [])] empty_world).
  reflexivity.
Defined.

Example risks_with_empty_approvals :
  risks (PDict [("gas_used", PInt 21000); ("approvals", PDict [])]) = Ok [NEW_APPROVALS].
Proof. reflexivity. Qed.

(** An answer that only says [success]. *)
Lemma no_gas_field_no_warning :
  dict_find "gas_used" [("success", PBool true)] = None /\
  py_get (PDict [("success", PBool true)]) "gas_used" (PInt 0) = Ok (PInt 0) /\
  exists rs,
    risks (PDict [("success", PBool true)]) = Ok rs /\
    ~ In HIGH_GAS rs /\
    risk_detection (PDict [("success", PBool true)]) empty_world
    = (Ok tt, draw (risk_events rs) empty_world) /\
    ~ In (UiWarning HIGH_GAS) (risk_events rs).
Proof.
  split; [ reflexivity | ].
  apply (missing_gas_used_never_warns [("success", PBool true)] empty_world).
  reflexivity.
Defined.

(** Call data typed without its [0x]. *)
Lemma unprefixed_calldata_is_rejected :
  button_fires (sample_inputs "a9059cbb") = true /\
  String.prefix "0x" (raw_tx (sample_inputs "a9059cbb")) = false /\
  simulate_button sample_libs 0 (sample_inputs "a9059cbb") empty_world
  = (Ok tt, add_ui prefix_error empty_world) /\
  net (snd (script sample_libs 0 (sample_inputs "a9059cbb") empty_world)) = [] /\
  calls (snd (script sample_libs 0 (sample_inputs "a9059cbb") empty_world)) = [].
Proof.
  split; [ reflexivity | ].
  split; [ reflexivity | ].
  apply (missing_prefix_reported_without_request
           sample_libs 0 (sample_inputs "a9059cbb") empty_world);
    reflexivity.
Defined.

(** A first call at time 0, two more inside the window, one at 300. *)
Lemma three_calls_one_request :
  simulate_at sample_libs 0 sample_key empty_world
  = (Ok sample_result, snd (simulate_at sample_libs 0 sample_key empty_world)) /\
  nth_error
    (fst (run_simulations sample_libs [(10%Z, sample_key); (299%Z, sample_key)]
            (snd (simulate_at sample_libs 0 sample_key empty_world)))) 1
  = Some (Ok sample_result, 0) /\
  net (snd (simulate_at sample_libs 300 sample_key
              (snd (run_simulations sample_libs [(10%Z, sample_key); (299%Z, sample_key)]
                      (snd (simulate_at sample_libs 0 sample_key empty_world))))))
  = net (snd (run_simulations sample_libs [(10%Z, sample_key); (299%Z, sample_key)]
                (snd (simulate_at sample_libs 0 sample_key empty_world))))
    ++ [simulate_request sample_key].
Proof.
  split; [ reflexivity | ].
  destruct (simulate_once_per_window sample_libs 0 sample_key sample_result
              empty_world (snd (simulate_at sample_libs 0 sample_key empty_world))
              [(10%Z, sample_key); (299%Z, sample_key)])
    as [Hhit Hafter].
  - reflexivity.
  - reflexivity.
  - intros t [Hin | [Hin | []]]; injection Hin as <-; lia.
  - split; [ apply (Hhit 1 299%Z); reflexivity | apply Hafter; lia ].
Defined.

Example unreachable_endpoint_is_asked_again :
  List.length (net (snd (run_simulations unreachable_libs
                           [(0%Z, sample_key); (1%Z, sample_key)] empty_world))) = 2.
Proof. reflexivity. Qed.

(** An [error] answer served from the cache ten seconds later, and an
    endpoint that cannot be reached. *)
Lemma bad_request_is_drawn_as_simulation_error :
  chain_id_of (chain (sample_inputs "0xa9059cbb")) = Ok 1%Z /\
  simulate_and_render bad_request_libs 10 (sample_inputs "0xa9059cbb")
    (snd (simulate_at bad_request_libs 0 sample_key empty_world))
  = (Ok tt,
     add_ui (in_band_error bad_request_libs (PStr "invalid transaction"))
       (add_ui (UiSubheader "📊 Results")
          (add_call (CallSimulate sample_key)
             (snd (simulate_at bad_request_libs 0 sample_key empty_world))))) /\
  simulate_and_render unreachable_libs 0 (sample_inputs "0xa9059cbb") empty_world
  = (Ok tt,
     add_ui (api_error (Exn "ConnectionError" "Max retries exceeded"))
       (after_request sample_key empty_world)).
Proof.
  split; [ reflexivity | ].
  split.
  - destruct (handler_reports_error_field_and_failures
                bad_request_libs 10 (sample_inputs "0xa9059cbb") 1
                (snd (simulate_at bad_request_libs 0 sample_key empty_world))
                eq_refl) as (Hband & _).
    apply (Hband [("error", PStr "invalid transaction")]); reflexivity.
  - destruct (handler_reports_error_field_and_failures
                unreachable_libs 0 (sample_inputs "0xa9059cbb") 1 empty_world
                eq_refl) as (_ & Hraise & _).
    apply Hraise. reflexivity.
Defined.

(** C2.  The script at the failing input: an answer with HTTP status 500
    whose body is JSON without an [error] field is rendered as a simulation
    result, and no error of either kind is drawn. *)
Lemma non_2xx_answer_is_rendered_as_result :
  (exists resp,
     http server_error_libs 0 (simulate_request sample_key) = Ok resp /\
     status_code resp = 500%Z) /\
  fst (script server_error_libs 0 (sample_inputs "0xa9059cbb") empty_world) = Ok tt /\
  ui (snd (simulate_button server_error_libs 0 (sample_inputs "0xa9059cbb") empty_world))
  = [ UiSubheader "📊 Results"; UiColumns 2;
      UiCol 0 (UiMetric "Status" (PStr "❌ Reverted"));
      UiCol 1 (UiMetric "Gas Used" (PStr "N/A")) ] /\
  (forall msg,
     ~ In (UiError msg)
         (ui (snd (script server_error_libs 0 (sample_inputs "0xa9059cbb") empty_world)))).
Proof.
  split; [ eexists; split; reflexivity | ].
  split; [ reflexivity | ].
  split; [ reflexivity | ].
  intros msg Hin. vm_compute in Hin.
  repeat (destruct Hin as [Hin | Hin]; [ discriminate Hin | ]).
  exact Hin.
Qed.

Example server_error_answer_is_cached :
  sim_cache (snd (script server_error_libs 0 (sample_inputs "0xa9059cbb") empty_world))
  = [(sample_key, (0%Z, PDict [("message", PStr "Internal Server Error")]))].
Proof. reflexivity. Qed.

Example four_transfers_three_fetches :
  nft_calls (calls (snd (script four_transfers_libs 0 (sample_inputs "0xa9059cbb")
                           empty_world)))
  = [("key", PStr "0xnft", PInt 1); ("key", PStr "0xnft", PInt 2);
     ("key", PStr "0xnft", PInt 3)].
Proof. reflexivity. Qed.

(** * Further properties of the script *)

(** ** Composing computations under a relation on worlds *)

Section Framed.
Variable G : world -> world -> Prop.
Hypothesis G_ui : forall w w', same_outside_ui w w' -> G w w'.
Hypothesis G_pre : forall w0 w w', same_outside_ui w0 w -> G w w' -> G w0 w'.
Hypothesis G_post : forall w w' w'', G w w' -> same_outside_ui w' w'' -> G w w''.

Lemma framed_ui_only {A} (m : M A) : ui_only m -> steps G m.
Proof. intros Hm w. apply G_ui, Hm. Qed.

Lemma framed_after_ui {A B} (m : M A) (k : A -> M B) :
  ui_only m -> (forall a, steps G (k a)) -> steps G (bind m k).
Proof.
  intros Hm Hk w. unfold bind. specialize (Hm w).
  destruct (m w) as [[a | e] w1]; cbn [snd] in *.
  - apply (G_pre _ _ _ Hm), Hk.
  - apply G_ui, Hm.
Qed.

Lemma framed_before_ui {A B} (m : M A) (k : A -> M B) :
  steps G m -> (forall a, ui_only (k a)) -> steps G (bind m k).
Proof.
  intros Hm Hk w. unfold bind. specialize (Hm w).
  destruct (m w) as [[a | e] w1]; cbn [snd] in *.
  - apply (G_post _ _ _ Hm), Hk.
  - exact Hm.
Qed.

End Framed.

Section Transitive.
Variable R : world -> world -> Prop.
Hypothesis R_ui : forall w w', same_outside_ui w w' -> R w w'.
Hypothesis R_trans : forall w1 w2 w3, R w1 w2 -> R w2 w3 -> R w1 w3.

Lemma steps_ui_only {A} (m : M A) : ui_only m -> steps R m.
Proof. intros Hm w. apply R_ui, Hm. Qed.

Lemma steps_bind {A B} (m : M A) (k : A -> M B) :
  steps R m -> (forall a, steps R (k a)) -> steps R (bind m k).
Proof.
  intros Hm Hk w. unfold bind. specialize (Hm w).
  destruct (m w) as [[a | e] w1]; cbn [snd] in *.
  - apply (R_trans _ _ _ Hm), Hk.
  - exact Hm.
Qed.

Lemma steps_for {A} (body : nat -> A -> M unit) (l : list A) :
  (forall i x, steps R (body i x)) -> forall i, steps R (for_enumerate body i l).
Proof.
  intros Hbody. induction l as [ | x l IH]; intros i.
  - apply steps_ui_only, ui_only_ret.
  - cbn [for_enumerate]. apply steps_bind; [ apply Hbody | intros _; apply IH ].
Qed.

End Transitive.

Lemma only_gets_ui (api : string) (w w' : world) :
  same_outside_ui w w' -> only_gets api w w'.
Proof.
  intros (Hnet & _ & Hsim & _). split; [ | exact Hsim ].
  exists []. rewrite app_nil_r. auto.
Qed.

Lemma only_gets_trans (api : string) (w1 w2 w3 : world) :
  only_gets api w1 w2 -> only_gets api w2 w3 -> only_gets api w1 w3.
Proof.
  intros [(l1 & Hnet1 & Hl1) Hsim1] [(l2 & Hnet2 & Hl2) Hsim2].
  split; [ | congruence ].
  exists (l1 ++ l2). split.
  - rewrite Hnet2, Hnet1. now rewrite app_assoc.
  - apply Forall_app. auto.
Qed.

(** ** The requests of a run *)

Section RunFacts.
Context (L : libs).

Lemma only_gets_of_ui_only {A} (api : string) (m : M A) :
  ui_only m -> steps (only_gets api) m.
Proof. apply steps_ui_only, only_gets_ui. Qed.

Lemma only_gets_bind {A B} (api : string) (m : M A) (k : A -> M B) :
  steps (only_gets api) m -> (forall a, steps (only_gets api) (k a)) ->
  steps (only_gets api) (bind m k).
Proof. apply steps_bind, only_gets_trans. Qed.

(** [get_nft_image] sends nothing when the cache serves it and one image
    request otherwise. *)
Lemma only_gets_get_nft_image (now : Z) (api : string) (a tid : pyval) :
  steps (only_gets api) (get_nft_image L now api a tid).
Proof.
  intros w. unfold get_nft_image, bind, log_call, cache_data.
  destruct (cache_lookup _ _ _ _ _).
  { split; [ exists []; cbn; rewrite app_nil_r; auto | reflexivity ]. }
  assert (Hone : forall w' : world,
             net w' = net w ++ [HttpGet ("https://api.sim.dune.com/v1/nft/"
                                          ++ py_str L a ++ "/" ++ py_str L tid)
                                  (bearer api)] ->
             sim_cache w' = sim_cache w -> only_gets api w w').
  { intros w' Hnet Hsim. split; [ | exact Hsim ].
    eexists. split; [ exact Hnet | ].
    constructor; [ | constructor ]. eexists. reflexivity. }
  unfold get_nft_image_body, bind, send, lift, ret.
  destruct (http L _ _) as [resp | e]; [ | apply Hone; reflexivity ].
  destruct (Z.eqb (status_code resp) 200); [ | apply Hone; reflexivity ].
  destruct (image_open L (content resp)); apply Hone; reflexivity.
Qed.

Lemma only_gets_render_nft_transfer (now : Z) (api : string) (i : nat) (t : pyval) :
  steps (only_gets api) (render_nft_transfer L now api i t).
Proof.
  unfold render_nft_transfer.
  apply only_gets_bind; [ apply only_gets_of_ui_only, ui_only_lift | intros a ].
  apply only_gets_bind; [ apply only_gets_of_ui_only, ui_only_lift | intros tid ].
  apply only_gets_bind; [ apply only_gets_get_nft_image | intros img ].
  apply only_gets_of_ui_only.
  apply ui_only_bind.
  - destruct img; [ apply ui_only_st_data | apply ui_only_ret ].
  - intros _. apply ui_only_bind; [ apply ui_only_lift | intros ?; apply ui_only_emit ].
Qed.

Lemma only_gets_render_result (now : Z) (api : string) (result : pyval) :
  steps (only_gets api) (render_result L now api result).
Proof.
  unfold render_result.
  apply only_gets_bind;
    [ apply only_gets_of_ui_only, ui_only_render_basic_info | intros _ ].
  apply only_gets_bind;
    [ apply only_gets_of_ui_only, ui_only_render_balance_changes | intros _ ].
  apply only_gets_bind;
    [ | intros _; apply only_gets_of_ui_only, ui_only_risk_detection ].
  unfold render_nft_transfers.
  apply only_gets_bind; [ apply only_gets_of_ui_only, ui_only_lift | intros nft ].
  destruct (py_truthy nft); [ | apply only_gets_of_ui_only, ui_only_ret ].
  apply only_gets_bind; [ apply only_gets_of_ui_only, ui_only_emit | intros _ ].
  apply only_gets_bind; [ apply only_gets_of_ui_only, ui_only_emit | intros _ ].
  apply only_gets_bind; [ apply only_gets_of_ui_only, ui_only_lift | intros shown ].
  apply steps_for.
  - apply only_gets_ui.
  - apply only_gets_trans.
  - intros i t. apply only_gets_render_nft_transfer.
Qed.

(** An unknown chain name is caught like any other failure. *)
Lemma simulate_and_render_unknown_chain (now : Z) (inp : inputs) (e : exn) (w : world) :
  chain_id_of (chain inp) = Raise e ->
  simulate_and_render L now inp w = (Ok tt, add_ui (api_error e) w).
Proof.
  intros Hchain. unfold simulate_and_render, try_except, bind, lift.
  rewrite Hchain. reflexivity.
Qed.

(** Whatever [simulate_tx] did, the rest of the handler sends image
    requests only. *)
Lemma simulate_and_render_tail (now : Z) (inp : inputs) (c : Z) (w : world) :
  chain_id_of (chain inp) = Ok c ->
  only_gets (api_key inp)
    (snd (simulate_at L now (sim_key_of inp c) w))
    (snd (simulate_and_render L now inp w)).
Proof.
  intros Hchain. rewrite (simulate_and_render_cases L now inp c w Hchain).
  assert (Hdraw : forall ev w0, only_gets (api_key inp) w0 (add_ui ev w0)).
  { intros ev w0. apply only_gets_ui, (ui_only_emit ev w0). }
  destruct (simulate_at L now (sim_key_of inp c) w) as [[result | e] w1];
    cbn [snd]; [ | apply Hdraw ].
  cbv zeta.
  assert (Hafter : forall ev,
             only_gets (api_key inp) w1
               (add_ui ev (add_ui (UiSubheader "📊 Results") w1))).
  { intros ev. eapply only_gets_trans; apply Hdraw. }
  destruct (py_in "error" result) as [[ | ] | e]; [ | | apply Hafter ].
  - destruct (py_getitem result "error"); apply Hafter.
  - pose proof (only_gets_render_result now (api_key inp) result
                  (add_ui (UiSubheader "📊 Results") w1)) as Hrender.
    destruct (render_result L now (api_key inp) result
                (add_ui (UiSubheader "📊 Results") w1)) as [[u | e] w3];
      cbn [snd] in *.
    + eapply only_gets_trans; [ apply Hdraw | exact Hrender ].
    + eapply only_gets_trans; [ apply Hdraw | ].
      eapply only_gets_trans; [ exact Hrender | apply Hdraw ].
Qed.

Lemma run_requests_ui (inp : inputs) (w w' : world) :
  same_outside_ui w w' -> run_requests inp w w'.
Proof.
  intros (Hnet & _). exists [], []. rewrite Hnet, !app_nil_r. auto.
Qed.

Lemma run_requests_pre (inp : inputs) (w0 w w' : world) :
  same_outside_ui w0 w -> run_requests inp w w' -> run_requests inp w0 w'.
Proof.
  intros (Hnet & _) (l_post & l_get & Hrun & Hrest).
  exists l_post, l_get. rewrite <- Hnet. auto.
Qed.

Lemma run_requests_post (inp : inputs) (w w' w'' : world) :
  run_requests inp w w' -> same_outside_ui w' w'' -> run_requests inp w w''.
Proof.
  intros (l_post & l_get & Hrun & Hrest) (Hnet & _).
  exists l_post, l_get. rewrite Hnet. auto.
Qed.

Lemma run_requests_simulate_button (now : Z) (inp : inputs) :
  steps (run_requests inp) (simulate_button L now inp).
Proof.
  intros w. unfold simulate_button.
  destruct (button_fires inp);
    [ | apply run_requests_ui, (ui_only_ret tt w) ].
  destruct (negb (String.prefix "0x" (raw_tx inp)));
    [ apply run_requests_ui, (ui_only_emit _ w) | ].
  destruct (chain_id_of (chain inp)) as [c | e] eqn:Hchain.
  2:{ rewrite (simulate_and_render_unknown_chain now inp e w Hchain).
      apply run_requests_ui, (ui_only_emit _ w). }
  destruct (simulate_and_render_tail now inp c w Hchain)
    as [(l_get & Hnet & Hgets) _].
  assert (Hsim : net (snd (simulate_at L now (sim_key_of inp c) w)) = net w \/
                 net (snd (simulate_at L now (sim_key_of inp c) w))
                 = net w ++ [simulate_request (sim_key_of inp c)]).
  { rewrite simulate_at_cases.
    destruct (cache_lookup _ _ _ _ _); [ left; reflexivity | right ].
    cbv zeta. destruct (http L _ _) as [resp | e]; [ | reflexivity ].
    destruct (json_body resp); reflexivity. }
  destruct Hsim as [Hsim | Hsim]; rewrite Hsim in Hnet.
  - exists [], l_get. split; [ exact Hnet | split; [ now left | exact Hgets ] ].
  - exists [simulate_request (sim_key_of inp c)], l_get.
    split; [ now rewrite app_assoc | split; [ right; eauto | exact Hgets ] ].
Qed.

(** X1.  A run of the script sends at most one simulation request.  When it
    sends one, the request carries the call data exactly as typed, the id of
    the chain selected and the API key, whatever the ABI tab did; every other
    request of the run is an image request authorised with the same key. *)
Theorem run_sends_one_simulation_request (now : Z) (inp : inputs) (w : world) :
  exists l_post l_get,
    net (snd (script L now inp w)) = net w ++ l_post ++ l_get /\
    (l_post = [] \/
     exists c,
       chain_id_of (chain inp) = Ok c /\
       l_post = [HttpPost DUNE_API_URL
                   [("Authorization", ("Bearer " ++ api_key inp)%string)]
                   (PDict [("transaction", PDict [("data", PStr (raw_tx inp))]);
                           ("chain_id", PInt c)])]) /\
    Forall (nft_get (api_key inp)) l_get.
Proof.
  assert (Hscript : steps (run_requests inp) (script L now inp)).
  { unfold script.
    apply framed_after_ui;
      [ apply run_requests_ui | apply run_requests_pre | apply ui_only_emit | intros _ ].
    apply framed_after_ui;
      [ apply run_requests_ui | apply run_requests_pre | apply ui_only_emit | intros _ ].
    apply framed_after_ui;
      [ apply run_requests_ui | apply run_requests_pre | apply ui_only_abi_tab | intros _ ].
    apply framed_before_ui;
      [ apply run_requests_post | apply run_requests_simulate_button | intros _ ].
    apply ui_only_bind; [ apply ui_only_emit | intros _; apply ui_only_emit ]. }
  destruct (Hscript w) as (l_post & l_get & Hnet & Hpost & Hgets).
  exists l_post, l_get. split; [ exact Hnet | split; [ | exact Hgets ] ].
  destruct Hpost as [Hnil | (c & Hchain & Hone)]; [ now left | right ].
  exists c. split; [ exact Hchain | exact Hone ].
Qed.

(** X2.  While the simulation cache holds a fresh answer for the inputs, a
    run of the script sends no simulation request: the requests it sends, if
    any, are image requests, and the cached answer stays in place. *)
Theorem run_on_fresh_answer_sends_no_simulation_request
    (now : Z) (inp : inputs) (c : Z) (w : world) :
  chain_id_of (chain inp) = Ok c ->
  has_fresh_answer inp c now w ->
  (exists l, net (snd (script L now inp w)) = net w ++ l /\
             Forall (nft_get (api_key inp)) l) /\
  sim_cache (snd (script L now inp w)) = sim_cache w.
Proof.
  intros Hchain Hfresh.
  set (G := fun w w' : world =>
              has_fresh_answer inp c now w -> only_gets (api_key inp) w w').
  assert (G_ui : forall w w', same_outside_ui w w' -> G w w').
  { intros w0 w' Hsame _. now apply only_gets_ui. }
  assert (G_pre : forall w0 w1 w', same_outside_ui w0 w1 -> G w1 w' -> G w0 w').
  { intros w0 w1 w' Hsame HG Hf.
    apply (only_gets_trans _ w0 w1 w'); [ now apply only_gets_ui | ].
    apply HG. destruct Hsame as (_ & _ & Hsim & _).
    unfold has_fresh_answer in *. now rewrite Hsim. }
  assert (G_post : forall w0 w' w'', G w0 w' -> same_outside_ui w' w'' -> G w0 w'').
  { intros w0 w' w'' HG Hsame Hf.
    apply (only_gets_trans _ w0 w' w''); [ now apply HG | now apply only_gets_ui ]. }
  assert (Hbutton : steps G (simulate_button L now inp)).
  { intros w0 (stored & r & Hfind & Hnow). unfold simulate_button.
    destruct (button_fires inp);
      [ | apply only_gets_ui, (ui_only_ret tt w0) ].
    destruct (negb (String.prefix "0x" (raw_tx inp)));
      [ apply only_gets_ui, (ui_only_emit _ w0) | ].
    pose proof (simulate_and_render_tail now inp c w0 Hchain) as Htail.
    rewrite (simulate_at_fresh L now stored _ r w0 Hfind Hnow) in Htail.
    cbn [snd] in Htail.
    apply (only_gets_trans _ w0 (add_call (CallSimulate (sim_key_of inp c)) w0));
      [ | exact Htail ].
    split; [ exists []; cbn; rewrite app_nil_r; auto | reflexivity ]. }
  assert (Hscript : steps G (script L now inp)).
  { unfold script.
    apply framed_after_ui; [ exact G_ui | exact G_pre | apply ui_only_emit | intros _ ].
    apply framed_after_ui; [ exact G_ui | exact G_pre | apply ui_only_emit | intros _ ].
    apply framed_after_ui; [ exact G_ui | exact G_pre | apply ui_only_abi_tab | intros _ ].
    apply framed_before_ui; [ exact G_post | exact Hbutton | intros _ ].
    apply ui_only_bind; [ apply ui_only_emit | intros _; apply ui_only_emit ]. }
  exact (Hscript w Hfresh).
Qed.

Lemma try_except_emit_returns (body : M unit) (report : exn -> ui_event) (w : world) :
  exists w', try_except body (fun e => emit (report e)) w = (Ok tt, w').
Proof.
  unfold try_except, emit.
  destruct (body w) as [[[] | e] w1]; eauto.
Qed.

(** X3.  The button handler never raises: whatever the libraries do inside
    the [try] (an unknown chain, a transport failure, a malformed answer, a
    drawing that Streamlit refuses), the handler returns normally. *)
Theorem simulate_button_never_raises (now : Z) (inp : inputs) (w : world) :
  exists w', simulate_button L now inp w = (Ok tt, w').
Proof.
  unfold simulate_button.
  destruct (button_fires inp); [ | unfold ret; eauto ].
  destruct (negb (String.prefix "0x" (raw_tx inp))); [ unfold emit; eauto | ].
  unfold simulate_and_render. apply try_except_emit_returns.
Qed.

Lemma add_ui_twice (a b : ui_event) (w : world) :
  add_ui b (add_ui a w) = draw [a; b] w.
Proof. unfold draw, add_ui. cbn. now rewrite <- app_assoc. Qed.

Lemma add_ui_once (a : ui_event) (w : world) : add_ui a w = draw [a] w.
Proof. reflexivity. Qed.

Lemma draw_app (evs1 evs2 : list ui_event) (w : world) :
  draw evs2 (draw evs1 w) = draw (evs1 ++ evs2) w.
Proof. unfold draw. cbn. now rewrite app_assoc. Qed.

(** X4.  Unless Streamlit refuses to draw the decoded call in the ABI tab,
    a run of the script returns normally and the last two elements it draws
    are the footer: no failure in decoding, simulating or rendering keeps
    the rest of the page from being drawn. *)
Theorem script_always_draws_footer (now : Z) (inp : inputs) (w : world) :
  (forall v, st_rejects L (UiJson v) = None) ->
  exists w', script L now inp w = (Ok tt, draw footer w').
Proof.
  intros Hjson.
  assert (Htab : forall w0, exists w1, abi_tab L inp w0 = (Ok tt, w1)).
  { intros w0. unfold abi_tab.
    destruct (str_truthy (abi_json inp)) eqn:Habi; [ | unfold ret; eauto ].
    unfold bind. rewrite (decode_with_abi L _ _ _ Habi).
    assert (Hdraw : forall v w2,
               exists w1, (if isinstance_dict v then st_data L (UiJson v) else ret tt) w2
                          = (Ok tt, w1)).
    { intros v w2. destruct (isinstance_dict v); [ | unfold ret; eauto ].
      unfold st_data. rewrite Hjson. unfold emit. eauto. }
    destruct (json_loads L (abi_json inp)) as [abi | e]; [ | apply Hdraw ].
    destruct (decode_function_input L abi (raw_tx inp)) as [[fn_name params] | e];
      apply Hdraw. }
  assert (Hbutton : forall w0, exists w1, simulate_button L now inp w0 = (Ok tt, w1)).
  { intros w0. unfold simulate_button.
    destruct (button_fires inp); [ | unfold ret; eauto ].
    destruct (negb (String.prefix "0x" (raw_tx inp))); [ unfold emit; eauto | ].
    unfold simulate_and_render. apply try_except_emit_returns. }
  unfold script. unfold bind at 1, emit at 1. unfold bind at 1, emit at 1.
  unfold bind at 1.
  destruct (Htab (add_ui (UiMarkdown "Simulate EVM transactions before executing them.")
                    (add_ui (UiTitle "🔮 Tx Simulator Pro") w))) as [w1 Hw1].
  rewrite Hw1. unfold bind at 1.
  destruct (Hbutton w1) as [w2 Hw2]. rewrite Hw2.
  unfold bind, emit. exists w2. now rewrite add_ui_twice.
Qed.

(** X5.  An answer whose JSON body is not an object (a list, a string, a
    number, [null]) is never rendered as a result or as the simulation's own
    error: after the results header, and at most the two empty metric
    columns, the handler draws an API error. *)
Theorem non_object_answer_is_api_error
    (now : Z) (inp : inputs) (c : Z) (result : pyval) (w w1 : world) :
  chain_id_of (chain inp) = Ok c ->
  simulate_at L now (sim_key_of inp c) w = (Ok result, w1) ->
  isinstance_dict result = false ->
  exists e evs,
    simulate_and_render L now inp w
    = (Ok tt, draw (UiSubheader "📊 Results" :: evs ++ [api_error e]) w1) /\
    (evs = [] \/ evs = [UiColumns 2]).
Proof.
  intros Hchain Hsim Hdict.
  rewrite (simulate_and_render_cases L now inp c w Hchain), Hsim. cbv zeta.
  assert (Hdirect : forall e,
             exists e' evs,
               (Ok tt, add_ui (api_error e) (add_ui (UiSubheader "📊 Results") w1))
               = (Ok tt, draw (UiSubheader "📊 Results" :: evs ++ [api_error e']) w1) /\
               (evs = [] \/ evs = [UiColumns 2])).
  { intros e. exists e, []. rewrite add_ui_twice. auto. }
  assert (Hcolumns : forall e (w3 : world),
             w3 = add_ui (UiColumns 2) (add_ui (UiSubheader "📊 Results") w1) ->
             exists e' evs,
               (@Ok unit tt, add_ui (api_error e) w3)
               = (Ok tt, draw (UiSubheader "📊 Results" :: evs ++ [api_error e']) w1) /\
               (evs = [] \/ evs = [UiColumns 2])).
  { intros e w3 ->. exists e, [UiColumns 2].
    rewrite add_ui_twice, add_ui_once, draw_app. auto. }
  destruct result as [ | b | z | f | s | s | l | l | d];
    try discriminate Hdict; cbn [py_in]; try apply Hdirect.
  - destruct (is_substring "error" s); [ cbn [py_getitem]; apply Hdirect | ].
    unfold render_result, render_basic_info, bind, emit, lift. cbn [py_get].
    eapply Hcolumns. reflexivity.
  - destruct (existsb _ l); [ cbn [py_getitem]; apply Hdirect | ].
    unfold render_result, render_basic_info, bind, emit, lift. cbn [py_get].
    eapply Hcolumns. reflexivity.
  - destruct (existsb _ l); [ cbn [py_getitem]; apply Hdirect | ].
    unfold render_result, render_basic_info, bind, emit, lift. cbn [py_get].
    eapply Hcolumns. reflexivity.
Qed.

(** X6.  With an empty API key or empty call data the button is disabled:
    even when pressed, the handler does nothing at all, and the whole run
    sends no request, calls neither decorated function and leaves both
    caches alone. *)
Theorem disabled_button_does_nothing (now : Z) (inp : inputs) (w : world) :
  api_key inp = "" \/ raw_tx inp = "" ->
  simulate_button L now inp w = (Ok tt, w) /\
  same_outside_ui w (snd (script L now inp w)).
Proof.
  intros Hempty.
  assert (Hfires : button_fires inp = false).
  { unfold button_fires, str_truthy.
    destruct Hempty as [-> | ->]; cbn;
      [ | destruct (String.eqb (api_key inp) "") ]; cbn;
      now rewrite ?andb_false_r. }
  assert (Hbutton : forall w0, simulate_button L now inp w0 = (Ok tt, w0)).
  { intros w0. unfold simulate_button. now rewrite Hfires. }
  split; [ apply Hbutton | ].
  assert (Hscript : ui_only (script L now inp)).
  { unfold script.
    apply ui_only_bind; [ apply ui_only_emit | intros _ ].
    apply ui_only_bind; [ apply ui_only_emit | intros _ ].
    apply ui_only_bind; [ apply ui_only_abi_tab | intros _ ].
    apply ui_only_bind.
    - intros w0. rewrite Hbutton. apply same_outside_ui_refl.
    - intros _. apply ui_only_bind; [ apply ui_only_emit | intros _; apply ui_only_emit ]. }
  apply Hscript.
Qed.

(** ** The NFT section on well-formed answers *)

Lemma get_nft_image_returns (now : Z) (api : string) (a tid : pyval) (w : world) :
  well_behaved L ->
  exists img w',
    get_nft_image L now api a tid w = (Ok img, w') /\
    calls w' = calls w ++ [CallNftImage (api, a, tid)].
Proof.
  intros (Hhttp & Hopen & _).
  pose proof (get_nft_image_calls L now api a tid w) as Hcalls.
  unfold get_nft_image, bind, log_call, cache_data in *.
  destruct (cache_lookup _ _ _ _ _); [ eauto | ].
  unfold get_nft_image_body, bind, send, lift, ret in *.
  destruct (Hhttp (List.length (net (add_call (CallNftImage (api, a, tid)) w)))
              (HttpGet ("https://api.sim.dune.com/v1/nft/" ++ py_str L a
                        ++ "/" ++ py_str L tid) (bearer api))) as [resp Hresp].
  rewrite Hresp in *.
  destruct (Z.eqb (status_code resp) 200); [ | eauto ].
  destruct (Hopen (content resp)) as [img Himg]. rewrite Himg in *. eauto.
Qed.

Lemma render_nft_transfer_returns (now : Z) (api : string) (i : nat) (t : pyval) (w : world) :
  well_behaved L -> well_formed_transfer t ->
  exists w',
    render_nft_transfer L now api i t w = (Ok tt, w') /\
    calls w' = calls w ++ [CallNftImage (transfer_key api t)].
Proof.
  intros Hlibs (a & tid & Ha & Htid).
  unfold transfer_key, field. rewrite Ha, Htid.
  unfold render_nft_transfer. unfold bind at 1, lift at 1. rewrite Ha.
  unfold bind at 1, lift at 1. rewrite Htid. unfold bind at 1.
  destruct (get_nft_image_returns now api a tid w Hlibs) as (img & w1 & Himg & Hcalls1).
  rewrite Himg.
  destruct Hlibs as (_ & _ & Hdraw).
  unfold bind, lift, emit, st_data, ret.
  destruct img as [im | ]; [ rewrite Hdraw | ];
    eexists; (split; [ reflexivity | exact Hcalls1 ]).
Qed.

Lemma preview_loop_returns (now : Z) (api : string) (shown : list pyval) :
  well_behaved L -> Forall well_formed_transfer shown ->
  forall (i : nat) (w : world),
  exists w',
    for_enumerate (render_nft_transfer L now api) i shown w = (Ok tt, w') /\
    calls w' = calls w ++ map CallNftImage (map (transfer_key api) shown).
Proof.
  intros Hlibs Hshown. induction Hshown as [ | t shown Ht _ IH]; intros i w.
  - exists w. cbn. now rewrite app_nil_r.
  - cbn [for_enumerate map]. unfold bind.
    destruct (render_nft_transfer_returns now api i t w Hlibs Ht) as (w1 & Hturn & Hcalls1).
    rewrite Hturn.
    destruct (IH (S i) w1) as (w' & Hloop & Hcalls).
    exists w'. split; [ exact Hloop | ].
    rewrite Hcalls, Hcalls1. now rewrite <- app_assoc.
Qed.

(** X7.  When the answer's [nft_transfers] is a list whose first three
    entries each have a [contract_address] and a [token_id], and no library
    call raises, the NFT section completes and calls the fetcher exactly
    once for each of those entries, in order: [min 3 n] calls for [n]
    transfers. *)
Theorem well_formed_transfers_are_fetched_in_order
    (now : Z) (api : string) (d : list (string * pyval)) (l : list pyval) (w : world) :
  well_behaved L ->
  dict_find "nft_transfers" d = Some (PList l) ->
  Forall well_formed_transfer (firstn 3 l) ->
  exists w',
    render_nft_transfers L now api (PDict d) w = (Ok tt, w') /\
    calls w' = calls w ++ map CallNftImage (map (transfer_key api) (firstn 3 l)) /\
    List.length (map (transfer_key api) (firstn 3 l)) = Nat.min 3 (List.length l).
Proof.
  intros Hlibs Hfind Hwf.
  unfold render_nft_transfers. unfold bind at 1, lift at 1.
  cbn [py_get]. rewrite Hfind.
  destruct l as [ | t l'].
  - exists w. cbn. now rewrite app_nil_r.
  - cbn [py_truthy]. unfold bind at 1, emit at 1. unfold bind at 1, emit at 1.
    unfold bind at 1, lift at 1. cbn [py_slice_to].
    destruct (preview_loop_returns now api (firstn 3 (t :: l')) Hlibs Hwf 0
                (add_ui (UiColumns 3) (add_ui (UiSubheader "🖼️ NFT Transfers") w)))
      as (w' & Hloop & Hcalls).
    exists w'. split; [ exact Hloop | split; [ exact Hcalls | ] ].
    now rewrite length_map, length_firstn.
Qed.

(** X8.  A token whose image request is answered with a status other than
    200 is a soft failure: the turn of the loop returns normally, draws only
    the caption, and the answer "no image" is stored for the token. *)
Theorem missing_image_is_skipped
    (now : Z) (api : string) (i : nat) (t a tid : pyval) (resp : response) (w : world) :
  py_getitem t "contract_address" = Ok a ->
  py_getitem t "token_id" = Ok tid ->
  cache_lookup img_key_eqb None now (api, a, tid) (img_cache w) = None ->
  http L (List.length (net w))
    (HttpGet ("https://api.sim.dune.com/v1/nft/" ++ py_str L a ++ "/" ++ py_str L tid)
       (bearer api)) = Ok resp ->
  status_code resp <> 200%Z ->
  render_nft_transfer L now api i t w
  = (Ok tt,
     add_ui (UiCol i (UiCaption ("Token #" ++ py_str L tid)))
       (set_img_cache (cache_store now (api, a, tid) None (img_cache w))
          (add_net (HttpGet ("https://api.sim.dune.com/v1/nft/" ++ py_str L a
                             ++ "/" ++ py_str L tid) (bearer api))
             (add_call (CallNftImage (api, a, tid)) w)))).
Proof.
  intros Ha Htid Hmiss Hresp Hstatus.
  unfold render_nft_transfer. unfold bind at 1, lift at 1. rewrite Ha.
  unfold bind at 1, lift at 1. rewrite Htid.
  unfold bind at 1.
  unfold get_nft_image, bind at 1, log_call, cache_data.
  cbn [img_cache add_call]. rewrite Hmiss.
  unfold get_nft_image_body, bind at 1, send.
  cbn [net add_call]. rewrite Hresp.
  apply Z.eqb_neq in Hstatus. rewrite Hstatus.
  unfold ret, bind, lift, emit. reflexivity.
Qed.

(** ** The two caches *)

Lemma pyval_eqb_refl : forall x : pyval, pyval_eqb x x = true.
Proof.
  fix IH 1. intros [ | b | z | f | s | s | l | l | d]; cbn.
  - reflexivity.
  - apply Bool.eqb_reflx.
  - apply Z.eqb_refl.
  - destruct f as [sg | sg | | sg m e]; cbn;
      rewrite ?Bool.eqb_reflx, ?Pos.eqb_refl, ?Z.eqb_refl; reflexivity.
  - apply String.eqb_refl.
  - apply String.eqb_refl.
  - induction l as [ | a l IHl]; [ reflexivity | ].
    rewrite (IH a). exact IHl.
  - induction l as [ | a l IHl]; [ reflexivity | ].
    rewrite (IH a). exact IHl.
  - induction d as [ | [k a] d IHd]; [ reflexivity | ].
    rewrite String.eqb_refl, (IH a). exact IHd.
Qed.

Lemma img_key_eqb_refl (k : img_key) : img_key_eqb k k = true.
Proof.
  destruct k as [[api a] tid]. unfold img_key_eqb.
  now rewrite String.eqb_refl, !pyval_eqb_refl.
Qed.

(** X9.  The image cache never expires: once [get_nft_image] has returned
    for a token, with an image or with none, every later call for the same
    key and token, at whatever time, returns the same value and sends no
    request. *)
Theorem nft_image_is_fetched_once
    (now later : Z) (api : string) (a tid : pyval) (img : option image) (w w0 : world) :
  get_nft_image L now api a tid w = (Ok img, w0) ->
  get_nft_image L later api a tid w0
  = (Ok img, add_call (CallNftImage (api, a, tid)) w0).
Proof.
  intros Hfirst.
  assert (Hserved : cache_lookup img_key_eqb None later (api, a, tid) (img_cache w0)
                    = Some img).
  { unfold get_nft_image, bind, log_call, cache_data in Hfirst.
    cbn [img_cache add_call] in Hfirst.
    destruct (cache_lookup img_key_eqb None now (api, a, tid) (img_cache w)) as [v | ]
      eqn:Hlookup.
    - injection Hfirst as <- <-. cbn [img_cache add_call].
      unfold cache_lookup, cache_fresh in *. exact Hlookup.
    - destruct (get_nft_image_body L api a tid (add_call (CallNftImage (api, a, tid)) w))
        as [[v | e] w'];
        [ | discriminate Hfirst ].
      injection Hfirst as <- <-.
      unfold cache_lookup, cache_store, cache_fresh.
      cbn [img_cache set_img_cache cache_find].
      now rewrite img_key_eqb_refl. }
  unfold get_nft_image, bind, log_call, cache_data.
  cbn [img_cache add_call]. now rewrite Hserved.
Qed.

(** X10.  Answers are cached per (API key, call data, chain id): a call
    under one tuple never serves a call under another.  After any call for
    [k], a call for a different tuple [k'] that had no entry still sends its
    own request. *)
Theorem other_tuple_is_not_served_from_cache
    (now later : Z) (k k' : sim_key) (w : world) :
  k <> k' ->
  cache_find sim_key_eqb k' (sim_cache w) = None ->
  net (snd (simulate_at L later k' (snd (simulate_at L now k w))))
  = net (snd (simulate_at L now k w)) ++ [simulate_request k'].
Proof.
  intros Hneq Hnone.
  assert (Hstill : cache_find sim_key_eqb k' (sim_cache (snd (simulate_at L now k w)))
                   = None).
  { rewrite simulate_at_other_key; [ exact Hnone | ].
    intros Heq. apply Hneq. now symmetry. }
  rewrite (simulate_at_cases L later k').
  unfold cache_lookup. rewrite Hstill. cbv zeta.
  destruct (http L _ _) as [resp | e]; [ | reflexivity ].
  destruct (json_body resp); reflexivity.
Qed.

(** ** The ABI tab *)

(** X11.  The ABI tab draws at most one element.  With an empty ABI box it
    draws nothing; after a failed decode it draws the warning and no JSON;
    the JSON view appears only for a call that both library calls decoded,
    and shows the function name and parameters they returned. *)
Theorem abi_tab_draws_warning_or_decoded_call (inp : inputs) (w : world) :
  (abi_json inp = "" -> abi_tab L inp w = (Ok tt, w)) /\
  exists evs,
    snd (abi_tab L inp w) = draw evs w /\
    (evs = [] \/
     (exists e, evs = [decode_warning e] /\ fst (abi_tab L inp w) = Ok tt) \/
     (exists abi fn_name params,
        json_loads L (abi_json inp) = Ok abi /\
        decode_function_input L abi (raw_tx inp) = Ok (fn_name, params) /\
        evs = [UiJson (decoded_dict fn_name params)])).
Proof.
  split.
  { intros Hempty. unfold abi_tab. rewrite Hempty. reflexivity. }
  assert (Hwarn : forall e,
             exists evs,
               snd (@Ok pyval (PStr (raw_tx inp)), add_ui (decode_warning e) w) = draw evs w
               /\ (evs = [] \/
                   (exists e', evs = [decode_warning e'] /\ @Ok unit tt = Ok tt) \/
                   (exists abi fn_name params,
                      json_loads L (abi_json inp) = Ok abi /\
                      decode_function_input L abi (raw_tx inp) = Ok (fn_name, params) /\
                      evs = [UiJson (decoded_dict fn_name params)]))).
  { intros e. exists [decode_warning e]. split; [ reflexivity | ].
    right; left. exists e. split; reflexivity. }
  unfold abi_tab.
  destruct (str_truthy (abi_json inp)) eqn:Habi.
  2:{ exists []. rewrite draw_nil. split; [ reflexivity | now left ]. }
  unfold bind. rewrite (decode_with_abi L _ _ _ Habi).
  destruct (json_loads L (abi_json inp)) as [abi | e] eqn:Hjson;
    [ | apply Hwarn ].
  destruct (decode_function_input L abi (raw_tx inp)) as [[fn_name params] | e] eqn:Hdec;
    [ | apply Hwarn ].
  cbn [isinstance_dict decoded_dict]. unfold st_data.
  destruct (st_rejects L (UiJson (decoded_dict fn_name params))).
  - exists []. rewrite draw_nil. split; [ reflexivity | now left ].
  - exists [UiJson (decoded_dict fn_name params)]. split; [ reflexivity | ].
    right; right. exists abi, fn_name, params. auto.
Qed.

End RunFacts.

(** ** The risk list *)

(** X12.  The risk list is one of four lists: empty, the high-gas warning,
    the approvals warning, or the high-gas warning followed by the approvals
    warning.  It never holds a warning twice, and never the approvals
    warning before the high-gas one. *)
Theorem risks_are_ordered (result : pyval) (rs : list string) :
  risks result = Ok rs ->
  rs = [] \/ rs = [HIGH_GAS] \/ rs = [NEW_APPROVALS] \/ rs = [HIGH_GAS; NEW_APPROVALS].
Proof.
  unfold risks, obind.
  destruct (py_get result "gas_used" (PInt 0)) as [gas | e]; [ | discriminate ].
  destruct (py_gt_const gas 500000) as [[ | ] | e]; [ | | discriminate ];
    (destruct (py_in "approvals" result) as [[ | ] | e]; [ | | discriminate ]);
    intros Heq; apply Ok_inj in Heq; subst rs; cbn; auto.
Qed.

(** X13.  The risk list is built exactly for the answers that are objects
    whose [gas_used] is missing or a number (an integer, a boolean or a
    float).  For every other answer, a [gas_used] that is a string or
    [null] among them, building it raises, and the risk section draws
    nothing, not even the approvals warning. *)
Theorem risks_built_iff_gas_is_numeric (result : pyval) (w : world) :
  ((exists rs, risks result = Ok rs) <->
   (exists d, result = PDict d /\ gas_used_numeric d = true)) /\
  (forall e, risks result = Raise e -> risk_detection result w = (Raise e, w)).
Proof.
  split.
  - split.
    + intros [rs Hrs]. unfold risks, obind in Hrs.
      destruct result as [ | b | z | f | s | s | l | l | d];
        cbn [py_get] in Hrs; try discriminate Hrs.
      exists d. split; [ reflexivity | ]. unfold gas_used_numeric.
      destruct (dict_find "gas_used" d) as [[ | b | z | f | s | s | l | l | d'] | ];
        cbn [py_gt_const] in Hrs; try discriminate Hrs; reflexivity.
    + intros (d & -> & Hnum). rewrite risks_of_dict.
      unfold gas_used_numeric in Hnum.
      destruct (dict_find "gas_used" d) as [[ | b | z | f | s | s | l | l | d'] | ];
        try discriminate Hnum; cbn [py_gt_const obind]; eauto.
  - intros e He. rewrite risk_detection_draws, He. reflexivity.
Qed.

(** ** The chain table *)

Lemma distinct_strings_NoDup (l : list string) : distinct_strings l = true -> NoDup l.
Proof.
  induction l as [ | x l IH]; intros H; [ constructor | ].
  cbn in H. apply andb_true_iff in H. destruct H as [Hx Hl].
  constructor; [ | now apply IH ].
  intros Hin. apply negb_true_iff in Hx.
  assert (Hex : existsb (String.eqb x) l = true).
  { apply existsb_exists. exists x. split; [ exact Hin | apply String.eqb_refl ]. }
  congruence.
Qed.

Lemma distinct_ids_NoDup (l : list Z) : distinct_ids l = true -> NoDup l.
Proof.
  induction l as [ | x l IH]; intros H; [ constructor | ].
  cbn in H. apply andb_true_iff in H. destruct H as [Hx Hl].
  constructor; [ | now apply IH ].
  intros Hin. apply negb_true_iff in Hx.
  assert (Hex : existsb (Z.eqb x) l = true).
  { apply existsb_exists. exists x. split; [ exact Hin | apply Z.eqb_refl ]. }
  congruence.
Qed.

Lemma chain_find_some (name : string) (c : Z) (table : list (string * Z)) :
  chain_find name table = Some c -> In (name, c) table.
Proof.
  induction table as [ | [k v] table IH]; cbn; [ discriminate | ].
  destruct (String.eqb name k) eqn:Hk.
  - intros Heq. injection Heq as ->. apply String.eqb_eq in Hk. subst k. now left.
  - intros Hfind. right. now apply IH.
Qed.

Lemma chain_find_listed (name : string) (table : list (string * Z)) :
  In name (map fst table) -> exists c, chain_find name table = Some c.
Proof.
  induction table as [ | [k v] table IH]; cbn; [ contradiction | ].
  intros [-> | Hin].
  - rewrite String.eqb_refl. eauto.
  - destruct (String.eqb name k); [ eauto | now apply IH ].
Qed.

Lemma chain_find_unlisted (name : string) (table : list (string * Z)) :
  ~ In name (map fst table) -> chain_find name table = None.
Proof.
  induction table as [ | [k v] table IH]; cbn; [ reflexivity | ].
  intros Hnot. destruct (String.eqb name k) eqn:Hk.
  - apply String.eqb_eq in Hk. subst k. exfalso. apply Hnot. now left.
  - apply IH. intros Hin. apply Hnot. now right.
Qed.

Lemma NoDup_snd_injective {A B} (table : list (A * B)) (a1 a2 : A) (b : B) :
  NoDup (map snd table) -> In (a1, b) table -> In (a2, b) table -> a1 = a2.
Proof.
  induction table as [ | [a b'] table IH]; cbn; [ contradiction | ].
  intros Hnd H1 H2. inversion Hnd as [ | x l Hnotin Hnd']; subst.
  destruct H1 as [H1 | H1], H2 as [H2 | H2].
  - congruence.
  - injection H1 as -> ->. exfalso. apply Hnotin.
    apply (in_map snd) in H2. exact H2.
  - injection H2 as -> ->. exfalso. apply Hnotin.
    apply (in_map snd) in H1. exact H1.
  - now apply IH.
Qed.

(** X14.  The chain table offers 22 names.  Every name it offers resolves to
    a positive chain id, so the lookup on line 103 cannot fail for a name
    picked from the selector; a name it does not offer raises [KeyError].
    No id is used for two names: the chain id sent identifies the chain
    selected. *)
Theorem chain_table_is_a_bijection :
  List.length CHAIN_IDS = 22 /\
  (forall name, In name (map fst CHAIN_IDS) ->
     exists c, chain_id_of name = Ok c /\ (0 < c)%Z) /\
  (forall name, ~ In name (map fst CHAIN_IDS) ->
     chain_id_of name = Raise (KeyError name)) /\
  (forall name1 name2 c,
     chain_id_of name1 = Ok c -> chain_id_of name2 = Ok c -> name1 = name2).
Proof.
  split; [ reflexivity | ].
  assert (Hsound : forall name c, chain_id_of name = Ok c -> In (name, c) CHAIN_IDS).
  { intros name c. unfold chain_id_of.
    destruct (chain_find name CHAIN_IDS) as [c' | ] eqn:Hfind; [ | discriminate ].
    intros Heq. apply Ok_inj in Heq. subst c'. now apply chain_find_some. }
  split; [ | split ].
  - intros name Hin. unfold chain_id_of.
    destruct (chain_find_listed name CHAIN_IDS Hin) as [c Hfind].
    rewrite Hfind. exists c. split; [ reflexivity | ].
    apply chain_find_some in Hfind.
    assert (Hpos : forallb (fun p => Z.ltb 0 (snd p)) CHAIN_IDS = true)
      by reflexivity.
    rewrite forallb_forall in Hpos. apply Z.ltb_lt. exact (Hpos _ Hfind).
  - intros name Hnot. unfold chain_id_of.
    now rewrite (chain_find_unlisted name CHAIN_IDS Hnot).
  - intros name1 name2 c H1 H2.
    apply (NoDup_snd_injective CHAIN_IDS name1 name2 c).
    + apply distinct_ids_NoDup. reflexivity.
    + now apply Hsound.
    + now apply Hsound.
Qed.

(** ** The further properties at work on the sample libraries *)

(** A second press, 100 seconds after the answer was stored. *)
Lemma second_press_sends_nothing :
  chain_id_of (chain (sample_inputs "0xa9059cbb")) = Ok 1%Z /\
  ((exists l,
      net (snd (script sample_libs 100 (sample_inputs "0xa9059cbb") world_with_answer))
      = net world_with_answer ++ l /\ Forall (nft_get "key") l) /\
   sim_cache (snd (script sample_libs 100 (sample_inputs "0xa9059cbb") world_with_answer))
   = sim_cache world_with_answer).
Proof.
  split; [ reflexivity | ].
  apply (run_on_fresh_answer_sends_no_simulation_request
           sample_libs 100 (sample_inputs "0xa9059cbb") 1 world_with_answer).
  - reflexivity.
  - exists 0%Z, sample_result. split; [ reflexivity | lia ].
Defined.

Lemma sample_run_draws_footer :
  exists w',
    script sample_libs 0 (sample_inputs "0xa9059cbb") empty_world
    = (Ok tt, draw footer w').
Proof.
  apply (script_always_draws_footer sample_libs 0 (sample_inputs "0xa9059cbb") empty_world).
  intros v. reflexivity.
Defined.

Lemma list_answer_is_api_error :
  isinstance_dict (PList [PStr "unexpected"]) = false /\
  exists e evs,
    simulate_and_render list_body_libs 0 (sample_inputs "0xa9059cbb") empty_world
    = (Ok tt,
       draw (UiSubheader "📊 Results" :: evs ++ [api_error e])
         (snd (simulate_at list_body_libs 0 sample_key empty_world))) /\
    (evs = [] \/ evs = [UiColumns 2]).
Proof.
  split; [ reflexivity | ].
  apply (non_object_answer_is_api_error list_body_libs 0 (sample_inputs "0xa9059cbb") 1
           (PList [PStr "unexpected"]) empty_world
           (snd (simulate_at list_body_libs 0 sample_key empty_world)));
    reflexivity.
Defined.

Lemma press_without_call_data_does_nothing :
  raw_tx (sample_inputs "") = "" /\
  simulate_button sample_libs 0 (sample_inputs "") empty_world = (Ok tt, empty_world) /\
  same_outside_ui empty_world (snd (script sample_libs 0 (sample_inputs "") empty_world)).
Proof.
  split; [ reflexivity | ].
  apply (disabled_button_does_nothing sample_libs 0 (sample_inputs "") empty_world).
  right. reflexivity.
Defined.

Lemma four_transfers_libs_well_behaved : well_behaved four_transfers_libs.
Proof.
  repeat split.
  - intros n [url headers json | url headers]; cbn; eauto.
  - intros data. cbn. eauto.
Qed.

Lemma transfer_well_formed (token_id : Z) : well_formed_transfer (transfer token_id).
Proof. exists (PStr "0xnft"), (PInt token_id). split; reflexivity. Qed.

Lemma four_transfers_three_calls :
  exists w',
    render_nft_transfers four_transfers_libs 0 "key"
      (PDict [("nft_transfers", PList four_transfers)]) empty_world = (Ok tt, w') /\
    calls w'
    = calls empty_world
      ++ map CallNftImage (map (transfer_key "key") (firstn 3 four_transfers)) /\
    List.length (map (transfer_key "key") (firstn 3 four_transfers))
    = Nat.min 3 (List.length four_transfers).
Proof.
  apply (well_formed_transfers_are_fetched_in_order four_transfers_libs 0 "key"
           [("nft_transfers", PList four_transfers)] four_transfers empty_world).
  - exact four_transfers_libs_well_behaved.
  - reflexivity.
  - repeat constructor; apply transfer_well_formed.
Defined.

Lemma token_without_image_gets_caption :
  render_nft_transfer sample_libs 0 "key" 0 (transfer 1) empty_world
  = (Ok tt,
     add_ui (UiCol 0 (UiCaption "Token #1"))
       (set_img_cache (cache_store 0 ("key", PStr "0xnft", PInt 1) None [])
          (add_net (HttpGet "https://api.sim.dune.com/v1/nft/0xnft/1" (bearer "key"))
             (add_call (CallNftImage ("key", PStr "0xnft", PInt 1)) empty_world)))).
Proof.
  apply (missing_image_is_skipped sample_libs 0 "key" 0 (transfer 1)
           (PStr "0xnft") (PInt 1)
           (Response 404 "" (Raise (Exn "JSONDecodeError" "Expecting value")))
           empty_world);
    try reflexivity.
  discriminate.
Defined.

Lemma image_asked_for_once :
  get_nft_image sample_libs 1000000 "key" (PStr "0xnft") (PInt 1)
    (snd (get_nft_image sample_libs 0 "key" (PStr "0xnft") (PInt 1) empty_world))
  = (Ok None,
     add_call (CallNftImage ("key", PStr "0xnft", PInt 1))
       (snd (get_nft_image sample_libs 0 "key" (PStr "0xnft") (PInt 1) empty_world))).
Proof.
  apply (nft_image_is_fetched_once sample_libs 0 1000000 "key" (PStr "0xnft") (PInt 1)
           None empty_world).
  reflexivity.
Defined.

(** The same call data on another chain. *)
Lemma other_chain_is_asked_again :
  net (snd (simulate_at sample_libs 1 ("key", "0xa9059cbb", 137%Z) world_with_answer))
  = net world_with_answer ++ [simulate_request ("key", "0xa9059cbb", 137%Z)].
Proof.
  apply (other_tuple_is_not_served_from_cache sample_libs 0 1
           sample_key ("key", "0xa9059cbb", 137%Z) empty_world).
  - discriminate.
  - reflexivity.
Defined.

Lemma both_risks_in_order :
  risks (PDict [("gas_used", PInt 900000); ("approvals", PDict [])])
  = Ok [HIGH_GAS; NEW_APPROVALS] /\
  ([HIGH_GAS; NEW_APPROVALS] = [] \/
   [HIGH_GAS; NEW_APPROVALS] = [HIGH_GAS] \/
   [HIGH_GAS; NEW_APPROVALS] = [NEW_APPROVALS] \/
   [HIGH_GAS; NEW_APPROVALS] = [HIGH_GAS; NEW_APPROVALS]).
Proof.
  split; [ reflexivity | ].
  apply (risks_are_ordered (PDict [("gas_used", PInt 900000); ("approvals", PDict [])])).
  reflexivity.
Defined.
